(** * video-processing/main.py: timestamp conversion, validation and clip extraction

    A shallow embedding of [main.py].  Python values are modelled as follows.

    - [str] is [string]; the text handled by the program is ASCII (timestamps,
      file names), so a character is an [ascii] and the whitespace and digit
      classes are the ASCII parts of Python's.
    - [int] is [Z] (Python integers are unbounded).  The interpreter's optional
      limit on the number of digits of an int/str conversion is a run-time
      setting and is left out.
    - a [float] duration is a rational [Q]: comparisons between an [int] and a
      [float] are exact in Python, and [//] and [%] are taken with their exact
      values (no rounding, no NaN).
    - [None] results and caught exceptions are [option]; the [print] calls are
      kept where a theorem tells branches apart (the validator's verdicts and
      the extractor's outcomes).
    - the file system is a finite map from paths to nodes, passed explicitly;
      the media toolchain (ffmpeg, moviepy) is an oracle record that says what
      each external call does. *)

From Stdlib Require Import ZArith QArith Qround Ascii String List Lia.
From stdpp Require Import base option list gmap strings.

Local Open Scope string_scope.
Local Open Scope list_scope.
Local Open Scope Z_scope.

(** ** Python built-ins used by the program *)

Module Py.

(** [c.isspace()] on the ASCII range: TAB, LF, VT, FF, CR, FS, GS, RS, US and
    the space.  This is the whitespace of [str.strip]. *)
Definition isspace (c : ascii) : bool :=
  let n := N_of_ascii c in
  ((9 <=? n)%N && (n <=? 13)%N) || ((28 <=? n)%N && (n <=? 32)%N).

(** The whitespace [int] skips around the digits of an ASCII text: TAB, LF,
    VT, FF, CR and the space (the interpreter's [Py_ISSPACE]). *)
Definition isspace_c (c : ascii) : bool :=
  let n := N_of_ascii c in
  ((9 <=? n)%N && (n <=? 13)%N) || (n =? 32)%N.

Fixpoint lstrip_by (space : ascii -> bool) (s : string) : string :=
  match s with
  | String c s' => if space c then lstrip_by space s' else s
  | EmptyString => EmptyString
  end.

Fixpoint rstrip_by (space : ascii -> bool) (s : string) : string :=
  match s with
  | EmptyString => EmptyString
  | String c s' =>
      match rstrip_by space s' with
      | EmptyString => if space c then EmptyString else String c EmptyString
      | r => String c r
      end
  end.

Definition strip_by (space : ascii -> bool) (s : string) : string :=
  rstrip_by space (lstrip_by space s).

(** [s.strip()] *)
Definition strip (s : string) : string := strip_by isspace s.

(** [c in s] for a one-character [c]. *)
Fixpoint contains (c : ascii) (s : string) : bool :=
  match s with
  | EmptyString => false
  | String d s' => if Ascii.eqb d c then true else contains c s'
  end.

(** [s.split(sep)] for a one-character separator: the fields between the
    separators, empty fields included; never the empty list. *)
Fixpoint split (sep : ascii) (s : string) : list string :=
  match s with
  | EmptyString => [EmptyString]
  | String c s' =>
      if Ascii.eqb c sep then EmptyString :: split sep s'
      else match split sep s' with
           | w :: ws => String c w :: ws
           | [] => [String c EmptyString]
           end
  end.

(** [f.readlines()]: the lines of a text, each with its terminating newline;
    a last line without one is kept as it is. *)
Fixpoint readlines (content : string) : list string :=
  match content with
  | EmptyString => []
  | String c rest =>
      if Ascii.eqb c "010"%char then String c EmptyString :: readlines rest
      else match readlines rest with
           | l :: ls => String c l :: ls
           | [] => [String c EmptyString]
           end
  end.

Definition digit_of (c : ascii) : option Z :=
  let n := Z.of_N (N_of_ascii c) in
  if (48 <=? n) && (n <=? 57) then Some (n - 48) else None.

(** The digits of an integer literal: decimal digits, with single underscores
    allowed between two digits.  [after_digit] tells whether the previous
    character was a digit. *)
Fixpoint int_digits (acc : Z) (after_digit : bool) (s : string) : option Z :=
  match s with
  | EmptyString => if after_digit then Some acc else None
  | String c s' =>
      if Ascii.eqb c "_" then
        if after_digit then int_digits acc false s' else None
      else
        match digit_of c with
        | Some d => int_digits (10 * acc + d) true s'
        | None => None
        end
  end.

(** [int(s)] for a string: surrounding whitespace is ignored, one sign is
    allowed; [None] stands for [ValueError]. *)
Definition int (s : string) : option Z :=
  match strip_by isspace_c s with
  | String c r =>
      if Ascii.eqb c "+" then int_digits 0 false r
      else if Ascii.eqb c "-" then Z.opp <$> int_digits 0 false r
      else int_digits 0 false (String c r)
  | EmptyString => None
  end.

(** [int(x)] for a float: truncation towards zero. *)
Definition int_of_float (x : Q) : Z := Z.quot (Qnum x) (Zpos (Qden x)).

(** [x // y] and [x % y] on floats, with their exact values. *)
Definition floordiv (x y : Q) : Q := inject_Z (Qfloor (x / y)).
Definition mod_ (x y : Q) : Q := (x - y * floordiv x y)%Q.

Definition digit_char (d : Z) : ascii := ascii_of_N (Z.to_N (48 + d)).

(** The decimal digits of a non-negative integer, most significant first.
    The fuel bounds the number of digits; [str_nat] gives enough of it. *)
Fixpoint digits_fuel (fuel : nat) (n : Z) (acc : string) : string :=
  match fuel with
  | O => acc
  | S f =>
      let acc' := String (digit_char (n mod 10)) acc in
      if n <? 10 then acc' else digits_fuel f (n / 10) acc'
  end.

Definition str_nat (n : Z) : string :=
  digits_fuel (S (Z.to_nat (Z.log2 n))) n EmptyString.

(** [str(n)] *)
Definition str (n : Z) : string :=
  if n <? 0 then String "-" (str_nat (- n)) else str_nat n.

Fixpoint zeros (k : nat) : string :=
  match k with
  | O => EmptyString
  | S k' => String "0" (zeros k')
  end.

(** [f"{n:0{width}d}"]: the sign first, then zeros up to [width] characters
    in all, then the digits. *)
Definition format_0d (width : nat) (n : Z) : string :=
  let sign := if n <? 0 then "-" else "" in
  let ds := str_nat (Z.abs n) in
  sign +:+ zeros (width - String.length sign - String.length ds) +:+ ds.

(** [os.path.join(a, b)] for a relative [b] on a POSIX system. *)
Fixpoint last_char (s : string) : option ascii :=
  match s with
  | EmptyString => None
  | String c EmptyString => Some c
  | String _ s' => last_char s'
  end.

Definition path_join (a b : string) : string :=
  match last_char a with
  | None => b
  | Some c => if Ascii.eqb c "/" then a +:+ b else a +:+ "/" +:+ b
  end.

End Py.

(** ** The time converter *)

(** [time_to_seconds], lines 28-42.  [list(map(int, ...))] raises at the first
    component that is not an integer; the handler returns [None].  A list of
    any length other than 2 or 3 falls off the end of the function, which is
    [None] as well. *)
Definition time_to_seconds (timestamp : string) : option Z :=
  match mapM Py.int (Py.split ":" timestamp) with
  | Some [minutes; seconds] => Some (minutes * 60 + seconds)
  | Some [hours; minutes; seconds] => Some (hours * 3600 + minutes * 60 + seconds)
  | Some _ => None
  | None => None
  end.

(** [time_to_seconds_to_timestamp], lines 128-132. *)
Definition time_to_seconds_to_timestamp (seconds : Q) : string :=
  let minutes := Py.int_of_float (Py.floordiv seconds 60) in
  let remaining_seconds := Py.int_of_float (Py.mod_ seconds 60) in
  Py.format_0d 2 minutes +:+ ":" +:+ Py.format_0d 2 remaining_seconds.

(** ** The timestamp source reader *)

(** The body of the loop of [read_timestamps], lines 16-20.  [None] is the
    [ValueError] of unpacking into [start, end] a list that does not have
    exactly two elements. *)
Definition read_line (timestamps : list (string * string)) (line : string)
  : option (list (string * string)) :=
  if Py.contains "-" line then
    match Py.split "-" (Py.strip line) with
    | [start; end_] => Some (timestamps ++ [(Py.strip start, Py.strip end_)])
    | _ => None
    end
  else Some timestamps.

(** The loop of lines 15-20: an exception leaves it at once. *)
Fixpoint read_lines (timestamps : list (string * string)) (lines : list string)
  : option (list (string * string)) :=
  match lines with
  | [] => Some timestamps
  | line :: rest =>
      match read_line timestamps line with
      | Some timestamps' => read_lines timestamps' rest
      | None => None
      end
  end.

(** [read_timestamps], lines 6-26.  The argument is the text of the file as
    [readlines] sees it (decoded, with its line ends translated to LF), or
    [None] when [open] or [readlines] raises.  Every exception of the [try]
    block ends in the handler of line 24, which returns the empty list. *)
Definition read_timestamps (file : option string) : list (string * string) :=
  match file with
  | Some content =>
      match read_lines [] (Py.readlines content) with
      | Some timestamps => timestamps
      | None => []
      end
  | None => []
  end.

(** ** The validator, lines 149-162 *)

(** The branch of the [if]/[elif] chain a pair takes, named by what it
    prints. *)
Inductive verdict :=
  | SkipInvalid     (* line 155: Skipping invalid timestamps *)
  | SkipStart       (* line 157: Start time exceeds video duration *)
  | AdjustEnd       (* line 159: End time exceeds video duration *)
  | Keep.           (* line 162 *)

Definition check_pair (video_duration : Q) (start end_ : string) : verdict :=
  match time_to_seconds start, time_to_seconds end_ with
  | Some start_sec, Some end_sec =>
      if Qle_bool video_duration (inject_Z start_sec) then SkipStart
      else if negb (Qle_bool (inject_Z end_sec) video_duration) then AdjustEnd
      else Keep
  | _, _ => SkipInvalid
  end.

Definition adjust_pair (video_duration : Q) (adjusted_timestamps : list (string * string))
    (p : string * string) : list (string * string) :=
  let '(start, end_) := p in
  match check_pair video_duration start end_ with
  | SkipInvalid | SkipStart => adjusted_timestamps
  | AdjustEnd =>
      adjusted_timestamps ++ [(start, time_to_seconds_to_timestamp video_duration)]
  | Keep => adjusted_timestamps ++ [(start, end_)]
  end.

Definition adjust_timestamps (video_duration : Q) (timestamps : list (string * string))
  : list (string * string) :=
  fold_left (adjust_pair video_duration) timestamps [].

(** [get_video_duration], lines 117-126.  The argument is what the probe of
    the video gives: its duration, or [None] when any call of the [try] block
    raises. *)
Definition get_video_duration (probe : option Q) : Q :=
  match probe with
  | Some duration => duration
  | None => 0%Q
  end.

(** ** The extractor, lines 44-115 *)

(** The regular files of the file system, each with its size in bytes.
    Directories are not part of this state, so the creation of the output
    folder (lines 48-50) does not change it. *)
Abbreviation filesystem := (gmap string N).

(** What the external calls of one iteration do. *)
Record clip_env := {
  extract_raises : bool;         (* ffmpeg_extract_subclip raises *)
  extract_leaves : option N;     (* the size of the temporary file it writes, if it writes one *)
  test_open : option Q;          (* line 74: the duration read, None when VideoFileClip raises *)
  clip_open : option (Q * Q);    (* line 88: duration and fps, None when VideoFileClip raises *)
  save_raises : bool;            (* resized, Crop or write_videofile raises *)
  save_leaves : option N;        (* the size of the clip file written, if one is written *)
  remove_refused : bool          (* os.remove raises although the file is there *)
}.

(** The branch by which an iteration ends, named by its last message. *)
Inductive outcome :=
  | InvalidTimestamps   (* line 59 *)
  | EmptyExtract        (* line 71 *)
  | ZeroDuration        (* line 76 *)
  | ExtractError        (* line 83 *)
  | EmptyClip           (* line 92 *)
  | SaveError           (* line 106 *)
  | Saved.              (* line 103 *)

Definition write_file (path : string) (written : option N) (fs : filesystem) : filesystem :=
  match written with
  | Some size => <[path := size]> fs
  | None => fs
  end.

(** [os.remove(path)]; [None] when it raises: the file is missing, or the
    system refuses. *)
Definition os_remove (refused : bool) (path : string) (fs : filesystem) : option filesystem :=
  if refused then None
  else match fs !! path with
       | Some _ => Some (delete path fs)
       | None => None
       end.

(** Lines 111-115: the exception of [os.remove] is caught and reported. *)
Definition remove_temp (env : clip_env) (temp_output_path : string) (fs : filesystem)
  : filesystem :=
  match os_remove (remove_refused env) temp_output_path fs with
  | Some fs' => fs'
  | None => fs
  end.

Definition temp_path (output_folder : string) (idx : nat) : string :=
  Py.path_join output_folder ("temp_clip_" +:+ Py.str (Z.of_nat idx + 1) +:+ ".mp4").

Definition final_path (output_folder : string) (idx : nat) : string :=
  Py.path_join output_folder ("clip_" +:+ Py.str (Z.of_nat idx + 1) +:+ ".mp4").

(** The body of the loop of [extract_and_resize_clips], lines 53-115, for
    the pair of index [idx] (counted from 0, as [enumerate] does). *)
Definition process_clip (env : clip_env) (output_folder : string) (idx : nat)
    (p : string * string) (fs : filesystem) : filesystem * outcome :=
  let '(start, end_) := p in
  match time_to_seconds start, time_to_seconds end_ with
  | Some start_sec, Some end_sec =>
      let temp_output_path := temp_path output_folder idx in
      (* first try block, lines 64-84 *)
      let fs1 := write_file temp_output_path (extract_leaves env) fs in
      if extract_raises env then (fs1, ExtractError)
      else
        match fs1 !! temp_output_path with
        | None => (fs1, ExtractError)            (* os.path.getsize raises *)
        | Some 0%N => (fs1, EmptyExtract)        (* line 72: continue *)
        | Some _ =>
            match test_open env with
            | None => (fs1, ExtractError)
            | Some test_duration =>
                if Qeq_bool test_duration 0 then
                  match os_remove (remove_refused env) temp_output_path fs1 with
                  | Some fs2 => (fs2, ZeroDuration)
                  | None => (fs1, ExtractError)  (* raised inside the try block *)
                  end
                else
                  (* second try block, lines 86-109 *)
                  match clip_open env with
                  | None => (remove_temp env temp_output_path fs1, SaveError)
                  | Some (duration, fps) =>
                      if Qeq_bool duration 0 then
                        match os_remove (remove_refused env) temp_output_path fs1 with
                        | Some fs2 => (fs2, EmptyClip)   (* line 95: continue *)
                        | None => (remove_temp env temp_output_path fs1, SaveError)
                        end
                      else
                        let fs2 := write_file (final_path output_folder idx) (save_leaves env) fs1 in
                        (remove_temp env temp_output_path fs2,
                         if save_raises env then SaveError else Saved)
                  end
            end
        end
  | _, _ => (fs, InvalidTimestamps)
  end.

Fixpoint process_clips (envs : nat -> clip_env) (output_folder : string) (idx : nat)
    (timestamps : list (string * string)) (fs : filesystem) : filesystem * list outcome :=
  match timestamps with
  | [] => (fs, [])
  | p :: rest =>
      let '(fs1, o) := process_clip (envs idx) output_folder idx p fs in
      let '(fs2, os) := process_clips envs output_folder (S idx) rest fs1 in
      (fs2, o :: os)
  end.

(** [extract_and_resize_clips]; [envs idx] is what the toolchain does in the
    iteration of index [idx].  The video itself is only read by the
    toolchain. *)
Definition extract_and_resize_clips (envs : nat -> clip_env) (video_path : string)
    (timestamps : list (string * string)) (output_folder : string) (fs : filesystem)
  : filesystem * list outcome :=
  process_clips envs output_folder 0 timestamps fs.

(** ** The main block, lines 134-165 *)

Record world := {
  video_probe : option Q;          (* what get_video_duration reads *)
  timestamps_text : option string; (* what read_timestamps reads *)
  clip_envs : nat -> clip_env
}.

Definition video_path : string := "video-processing/input_files/sample_video.mp4".
Definition timestamps_file : string := "video-processing/input_files/timestamps.txt".
Definition output_folder : string := "video-processing/output_videos".

Definition main (w : world) (fs : filesystem) : filesystem * list outcome :=
  match fs !! video_path, fs !! timestamps_file with
  | None, _ => (fs, [])
  | Some _, None => (fs, [])
  | Some _, Some _ =>
      let video_duration := get_video_duration (video_probe w) in
      let timestamps := read_timestamps (timestamps_text w) in
      let adjusted_timestamps := adjust_timestamps video_duration timestamps in
      extract_and_resize_clips (clip_envs w) video_path adjusted_timestamps output_folder fs
  end.

(** ** Vocabulary of the statements *)

Fixpoint string_forall (P : ascii -> Prop) (s : string) : Prop :=
  match s with
  | EmptyString => True
  | String c s' => P c /\ string_forall P s'
  end.

(** The characters [str] and [format_0d] write for a non-negative number. *)
Definition digit (c : ascii) : Prop := exists d, 0 <= d <= 9 /\ c = Py.digit_char d.

(** The text [time_to_seconds_to_timestamp] writes for the fields [m] and [s]. *)
Definition timestamp_text (m s : Z) : string := Py.format_0d 2 m +:+ ":" +:+ Py.format_0d 2 s.

(** The two decimal digits of a number below 100, and the zero-padded text
    [MM:SS] of a number of minutes and a number of seconds. *)
Definition two_digits (k : Z) : string :=
  String (Py.digit_char (k / 10)) (String (Py.digit_char (k mod 10)) EmptyString).

Definition mmss (m s : Z) : string := two_digits m +:+ ":" +:+ two_digits s.

(** What a line adds to the result when it can be read. *)
Definition pair_of_line (line : string) : list (string * string) :=
  match read_line [] line with
  | Some timestamps => timestamps
  | None => []
  end.

(** No timestamp read from the file holds a minus sign. *)
Definition no_minus (p : string * string) : Prop :=
  Py.contains "-" p.1 = false /\ Py.contains "-" p.2 = false.

(** The branches that try to delete the temporary file before they leave
    the iteration. *)
Definition removal_attempted (o : outcome) : bool :=
  match o with
  | ZeroDuration | EmptyClip | SaveError | Saved => true
  | InvalidTimestamps | EmptyExtract | ExtractError => false
  end.

(** A toolchain whose extraction returns and writes an empty file; nothing
    else fails and the deletion is not refused. *)
Definition empty_extract_env : clip_env :=
  {| extract_raises := false; extract_leaves := Some 0%N;
     test_open := Some 10%Q; clip_open := Some (10%Q, 30%Q);
     save_raises := false; save_leaves := Some 1000%N;
     remove_refused := false |}.

(** The same toolchain with an extraction of 1000 bytes whose duration
    reads as zero. *)
Definition zero_duration_env : clip_env :=
  {| extract_raises := false; extract_leaves := Some 1000%N;
     test_open := Some 0%Q; clip_open := Some (0%Q, 30%Q);
     save_raises := false; save_leaves := Some 1000%N;
     remove_refused := false |}.

(** The number of occurrences of a character. *)
Fixpoint count_char (x : ascii) (s : string) : nat :=
  match s with
  | EmptyString => O
  | String c s' => ((if Ascii.eqb c x then 1 else 0) + count_char x s')%nat
  end.

(** The pair a line stands for: the two stripped sides of its only
    separator; nothing for a line that does not have exactly one. *)
Definition line_pair (line : string) : list (string * string) :=
  match Py.split "-" (Py.strip line) with
  | [a; b] => [(Py.strip a, Py.strip b)]
  | _ => []
  end.

(** A pair that converts and lies within a video of the given duration. *)
Definition within (video_duration : Q) (p : string * string) : Prop :=
  exists start_sec end_sec,
    time_to_seconds p.1 = Some start_sec /\ time_to_seconds p.2 = Some end_sec
    /\ (inject_Z start_sec < video_duration)%Q /\ (inject_Z end_sec <= video_duration)%Q.

(** The branches of an iteration that get past both probes and try to save
    the clip. *)
Definition save_attempted (o : outcome) : bool :=
  match o with
  | SaveError | Saved => true
  | InvalidTimestamps | EmptyExtract | ZeroDuration | ExtractError | EmptyClip => false
  end.

(** A toolchain for which everything works: 5000 bytes extracted, a clip of
    2000 bytes saved. *)
Definition working_env : clip_env :=
  {| extract_raises := false; extract_leaves := Some 5000%N;
     test_open := Some 10%Q; clip_open := Some (10%Q, 30%Q);
     save_raises := false; save_leaves := Some 2000%N;
     remove_refused := false |}.

(** A toolchain for which every step of an iteration works: the extraction
    returns with a file that is not empty, both probes read a duration that
    is not zero, the clip is encoded and written, the deletion goes through. *)
Definition works (env : clip_env) : Prop :=
  extract_raises env = false
  /\ (exists size, extract_leaves env = Some (Npos size))
  /\ (exists test_duration, test_open env = Some test_duration
                            /\ Qeq_bool test_duration 0 = false)
  /\ (exists duration fps, clip_open env = Some (duration, fps)
                           /\ Qeq_bool duration 0 = false)
  /\ save_raises env = false
  /\ is_Some (save_leaves env)
  /\ remove_refused env = false.

(** A pair whose two timestamps convert. *)
Definition converts (p : string * string) : Prop :=
  is_Some (time_to_seconds p.1) /\ is_Some (time_to_seconds p.2).

(** A run on a video of 100 seconds with three lines of timestamps, the
    toolchain working at every iteration, and the two input files in place. *)
Definition working_world : world :=
  {| video_probe := Some 100%Q;
     timestamps_text := Some "00:10-00:20
00:50-01:50
02:00-02:10
";
     clip_envs := fun _ => working_env |}.

Definition input_files : filesystem :=
  <[video_path := 9000%N]> (<[timestamps_file := 36%N]> ∅).

(** ** Examples *)

Example to_seconds_hms : time_to_seconds "1:30:00" = Some 5400.
Proof. reflexivity. Qed.

Example to_seconds_ms : time_to_seconds "02:05" = Some 125.
Proof. reflexivity. Qed.

Example to_seconds_garbage : time_to_seconds "garbage" = None.
Proof. reflexivity. Qed.

Example to_seconds_four : time_to_seconds "1:2:3:4" = None.
Proof. reflexivity. Qed.

Example to_timestamp_125 : time_to_seconds_to_timestamp 125 = "02:05".
Proof. reflexivity. Qed.

Example to_timestamp_float : time_to_seconds_to_timestamp (1007 # 10) = "01:40".
Proof. reflexivity. Qed.

Example to_seconds_signs : time_to_seconds " 1_0 : +5 " = Some 605.
Proof. reflexivity. Qed.

Example format_negative : Py.format_0d 3 (-5) = "-05" /\ Py.format_0d 2 (-1) = "-1".
Proof. split; reflexivity. Qed.

Example int_whitespace :
  Py.int " 5 " = Some 5
  /\ Py.strip (String "028"%char "5") = "5"
  /\ Py.int (String "028"%char "5") = None.
Proof. repeat split; reflexivity. Qed.

Example strip_both : Py.strip "  a b 
" = "a b".
Proof. reflexivity. Qed.

Example split_trailing : Py.split "-" "a-b-" = ["a"; "b"; ""].
Proof. reflexivity. Qed.

Example path_join_ex :
  Py.path_join "out" "x.mp4" = "out/x.mp4" /\ Py.path_join "out/" "x.mp4" = "out/x.mp4".
Proof. split; reflexivity. Qed.

Example read_three_lines :
  read_timestamps (Some "00:10-00:20
garbage
00:30-00:40
") = [("00:10", "00:20"); ("00:30", "00:40")].
Proof. reflexivity. Qed.

Example mmss_ex : mmss 2 5 = "02:05" /\ mmss 59 0 = "59:00".
Proof. split; reflexivity. Qed.

Example validator_example :
  adjust_timestamps 100 [("00:50", "01:50"); ("02:00", "02:10")] = [("00:50", "01:40")].
Proof. reflexivity. Qed.

(** ** Facts about the built-ins *)

Lemma append_nil_l (s : string) : "" +:+ s = s.
Proof. reflexivity. Qed.

Lemma append_cons (c : ascii) (s t : string) : String c s +:+ t = String c (s +:+ t).
Proof. reflexivity. Qed.

Lemma string_forall_app P (s t : string) :
  string_forall P s -> string_forall P t -> string_forall P (s +:+ t).
Proof.
  induction s as [|c s IH]; intros Hs Ht.
  - exact Ht.
  - rewrite append_cons. destruct Hs as [Hc Hs]. split; [exact Hc | apply IH; assumption].
Qed.

Lemma string_forall_impl (P R : ascii -> Prop) (s : string) :
  (forall c, P c -> R c) -> string_forall P s -> string_forall R s.
Proof.
  intros HPR. induction s as [|c s IH]; simpl; [trivial | intros [Hc Hs]; auto].
Qed.

Lemma digit_range (d : Z) : 0 <= d <= 9 -> In d [0; 1; 2; 3; 4; 5; 6; 7; 8; 9].
Proof. simpl. lia. Qed.

Ltac each_digit H :=
  apply digit_range in H; simpl in H;
  repeat (destruct H as [<- | H]; [reflexivity |]); destruct H.

Lemma digit_of_char (d : Z) : 0 <= d <= 9 -> Py.digit_of (Py.digit_char d) = Some d.
Proof. intros H. each_digit H. Qed.

Lemma digit_not_space (c : ascii) : digit c -> Py.isspace_c c = false.
Proof. intros (d & H & ->). each_digit H. Qed.

Lemma digit_neq (c x : ascii) :
  digit c -> Py.digit_of x = None -> Ascii.eqb c x = false.
Proof.
  intros (d & H & ->) Hx. destruct (Ascii.eqb_spec (Py.digit_char d) x) as [<- | Hne].
  - rewrite digit_of_char in Hx by assumption. discriminate.
  - reflexivity.
Qed.

Lemma zero_digit : digit "0".
Proof. exists 0. split; [lia | reflexivity]. Qed.

Lemma zeros_digits (k : nat) : string_forall digit (Py.zeros k).
Proof. induction k as [|k IH]; simpl; [trivial | split; [apply zero_digit | exact IH]]. Qed.

Lemma digits_fuel_digits (fuel : nat) :
  forall n acc, 0 <= n -> string_forall digit acc ->
    string_forall digit (Py.digits_fuel fuel n acc).
Proof.
  induction fuel as [|f IH]; intros n acc Hn Hacc; simpl; [exact Hacc |].
  assert (Hd : digit (Py.digit_char (n mod 10))).
  { exists (n mod 10). split; [pose proof (Z.mod_pos_bound n 10); lia | reflexivity]. }
  destruct (n <? 10).
  - split; assumption.
  - apply IH; [apply Z.div_pos; lia | split; assumption].
Qed.

Lemma str_nat_digits (n : Z) : 0 <= n -> string_forall digit (Py.str_nat n).
Proof. intros Hn. apply digits_fuel_digits; [exact Hn | exact I]. Qed.

(** Reading one digit, and reading back the digits written with enough
    fuel. *)
Lemma int_digits_digit (acc d : Z) (b : bool) (s : string) :
  0 <= d <= 9 ->
  Py.int_digits acc b (String (Py.digit_char d) s) = Py.int_digits (10 * acc + d) true s.
Proof.
  intros Hd. cbn [Py.int_digits].
  rewrite (digit_neq _ "_"); [| exists d; split; [exact Hd | reflexivity] | reflexivity].
  rewrite digit_of_char by exact Hd. reflexivity.
Qed.

Lemma int_digits_fuel (f : nat) :
  forall n acc b, 0 <= n < 2 ^ Z.of_nat (S f) ->
    Py.int_digits 0 b (Py.digits_fuel (S f) n acc) = Py.int_digits n true acc.
Proof.
  induction f as [|f IH]; intros n acc b Hn;
    pose proof (Z.mod_pos_bound n 10 ltac:(lia)) as Hmod.
  - cbn [Py.digits_fuel]. change (2 ^ Z.of_nat 1) with 2 in Hn.
    destruct (Z.ltb_spec n 10) as [Hlt | Hge]; [| lia].
    rewrite int_digits_digit by lia. rewrite Z.mod_small by lia. reflexivity.
  - change (Py.digits_fuel (S (S f)) n acc)
      with (if n <? 10 then String (Py.digit_char (n mod 10)) acc
            else Py.digits_fuel (S f) (n / 10) (String (Py.digit_char (n mod 10)) acc)).
    destruct (Z.ltb_spec n 10) as [Hlt | Hge].
    + rewrite int_digits_digit by lia. rewrite Z.mod_small by lia. reflexivity.
    + rewrite IH.
      * rewrite int_digits_digit by lia. f_equal. pose proof (Z.div_mod n 10). lia.
      * split; [apply Z.div_pos; lia |].
        apply Z.div_lt_upper_bound; [lia |].
        rewrite (Nat2Z.inj_succ (S f)), Z.pow_succ_r in Hn by lia. lia.
Qed.

Lemma int_digits_str_nat (n : Z) (b : bool) :
  0 <= n -> Py.int_digits 0 b (Py.str_nat n) = Some n.
Proof.
  intros Hn. unfold Py.str_nat. rewrite int_digits_fuel; [reflexivity |].
  split; [exact Hn |].
  destruct (Z.eq_dec n 0) as [-> | Hne]; [reflexivity |].
  rewrite Nat2Z.inj_succ, Z2Nat.id by apply Z.log2_nonneg.
  apply Z.log2_spec. lia.
Qed.

Lemma int_digits_zeros (k : nat) (s : string) :
  Py.int_digits 0 true (Py.zeros k +:+ s) = Py.int_digits 0 true s.
Proof.
  induction k as [|k IH]; [reflexivity |].
  cbn [Py.zeros]. rewrite append_cons. exact IH.
Qed.

Lemma format_0d_nonneg (width : nat) (n : Z) :
  0 <= n ->
  Py.format_0d width n
  = Py.zeros (width - 0 - String.length (Py.str_nat n)) +:+ Py.str_nat n.
Proof.
  intros Hn. unfold Py.format_0d.
  destruct (Z.ltb_spec n 0) as [Hlt | _]; [lia |].
  rewrite Z.abs_eq by exact Hn. reflexivity.
Qed.

Lemma format_0d_digits (width : nat) (n : Z) :
  0 <= n -> string_forall digit (Py.format_0d width n).
Proof.
  intros Hn. rewrite format_0d_nonneg by exact Hn.
  apply string_forall_app; [apply zeros_digits | apply str_nat_digits; exact Hn].
Qed.

Lemma int_digits_format_0d (width : nat) (n : Z) :
  0 <= n -> Py.int_digits 0 false (Py.format_0d width n) = Some n.
Proof.
  intros Hn. rewrite format_0d_nonneg by exact Hn.
  destruct (width - 0 - String.length (Py.str_nat n))%nat as [|k].
  - apply int_digits_str_nat; exact Hn.
  - cbn [Py.zeros]. rewrite append_cons.
    change (Py.int_digits 0 false (String "0" (Py.zeros k +:+ Py.str_nat n)))
      with (Py.int_digits 0 true (Py.zeros k +:+ Py.str_nat n)).
    rewrite int_digits_zeros. apply int_digits_str_nat; exact Hn.
Qed.

(** Stripping leaves a text without whitespace as it is. *)
Lemma lstrip_no_space (space : ascii -> bool) (s : string) :
  string_forall (fun c => space c = false) s -> Py.lstrip_by space s = s.
Proof. destruct s as [|c s]; [reflexivity |]. intros [Hc _]. simpl. rewrite Hc. reflexivity. Qed.

Lemma rstrip_no_space (space : ascii -> bool) (s : string) :
  string_forall (fun c => space c = false) s -> Py.rstrip_by space s = s.
Proof.
  induction s as [|c s IH]; [reflexivity |]. intros [Hc Hs].
  cbn [Py.rstrip_by]. rewrite IH by exact Hs. rewrite Hc. destruct s; reflexivity.
Qed.

Lemma strip_no_space (space : ascii -> bool) (s : string) :
  string_forall (fun c => space c = false) s -> Py.strip_by space s = s.
Proof.
  intros Hs. unfold Py.strip_by. rewrite lstrip_no_space by exact Hs.
  apply rstrip_no_space; exact Hs.
Qed.

Lemma int_of_digits (s : string) :
  string_forall digit s -> Py.int s = Py.int_digits 0 false s.
Proof.
  intros Hs. unfold Py.int. rewrite strip_no_space.
  - destruct s as [|c r]; [reflexivity |]. destruct Hs as [Hc _].
    rewrite (digit_neq c "+"), (digit_neq c "-") by (assumption || reflexivity).
    reflexivity.
  - revert Hs. apply string_forall_impl. exact digit_not_space.
Qed.

Lemma int_format_0d (width : nat) (n : Z) :
  0 <= n -> Py.int (Py.format_0d width n) = Some n.
Proof.
  intros Hn. rewrite int_of_digits by (apply format_0d_digits; exact Hn).
  apply int_digits_format_0d; exact Hn.
Qed.

(** [split] on a text without the separator, and at the first separator. *)
Lemma split_no_sep (sep : ascii) (s : string) :
  Py.contains sep s = false -> Py.split sep s = [s].
Proof.
  induction s as [|c s IH]; [reflexivity |]. cbn [Py.contains Py.split].
  destruct (Ascii.eqb c sep); [discriminate |]. intros Hs. rewrite IH by exact Hs. reflexivity.
Qed.

Lemma split_app (sep : ascii) (a b : string) :
  Py.contains sep a = false ->
  Py.split sep (a +:+ String sep b) = a :: Py.split sep b.
Proof.
  induction a as [|c a IH].
  - intros _. rewrite append_nil_l. cbn [Py.split]. rewrite Ascii.eqb_refl. reflexivity.
  - cbn [Py.contains]. rewrite append_cons. cbn [Py.split].
    destruct (Ascii.eqb c sep); [discriminate |]. intros Ha. rewrite IH by exact Ha. reflexivity.
Qed.

Lemma digits_no_char (x : ascii) (s : string) :
  Py.digit_of x = None -> string_forall digit s -> Py.contains x s = false.
Proof.
  intros Hx. induction s as [|c s IH]; [reflexivity |]. intros [Hc Hs].
  cbn [Py.contains]. rewrite (digit_neq c x) by assumption. apply IH; exact Hs.
Qed.

(** ** Facts about the converter *)

Lemma time_to_seconds_two (timestamp a b : string) (minutes seconds : Z) :
  Py.split ":" timestamp = [a; b] ->
  Py.int a = Some minutes -> Py.int b = Some seconds ->
  time_to_seconds timestamp = Some (minutes * 60 + seconds).
Proof.
  intros Hsplit Ha Hb. unfold time_to_seconds. rewrite Hsplit.
  cbn. rewrite Ha. cbn. rewrite Hb. reflexivity.
Qed.

Lemma time_to_seconds_three (timestamp a b c : string) (hours minutes seconds : Z) :
  Py.split ":" timestamp = [a; b; c] ->
  Py.int a = Some hours -> Py.int b = Some minutes -> Py.int c = Some seconds ->
  time_to_seconds timestamp = Some (hours * 3600 + minutes * 60 + seconds).
Proof.
  intros Hsplit Ha Hb Hc. unfold time_to_seconds. rewrite Hsplit.
  cbn. rewrite Ha. cbn. rewrite Hb. cbn. rewrite Hc. reflexivity.
Qed.

Lemma time_to_seconds_timestamp_text (m s : Z) :
  0 <= m -> 0 <= s -> time_to_seconds (timestamp_text m s) = Some (m * 60 + s).
Proof.
  intros Hm Hs. apply (time_to_seconds_two _ (Py.format_0d 2 m) (Py.format_0d 2 s)).
  - unfold timestamp_text.
    change (":" +:+ Py.format_0d 2 s) with (String ":" (Py.format_0d 2 s)).
    rewrite split_app by (apply digits_no_char; [reflexivity | apply format_0d_digits; exact Hm]).
    rewrite split_no_sep by (apply digits_no_char; [reflexivity | apply format_0d_digits; exact Hs]).
    reflexivity.
  - apply int_format_0d; exact Hm.
  - apply int_format_0d; exact Hs.
Qed.

(** Below 100 the padded field is made of exactly two digits. *)
Lemma format_0d_two_digits (k : Z) : 0 <= k < 100 -> Py.format_0d 2 k = two_digits k.
Proof.
  intros Hk.
  assert (Hall : forallb (fun i => String.eqb (Py.format_0d 2 (Z.of_nat i))
                                     (two_digits (Z.of_nat i))) (seq 0 100) = true)
    by (vm_compute; reflexivity).
  rewrite forallb_forall in Hall. specialize (Hall (Z.to_nat k)).
  rewrite Z2Nat.id in Hall by lia. apply String.eqb_eq, Hall, in_seq. lia.
Qed.

Lemma mmss_timestamp_text (m s : Z) :
  0 <= m < 100 -> 0 <= s < 100 -> mmss m s = timestamp_text m s.
Proof.
  intros Hm Hs. unfold mmss, timestamp_text.
  rewrite !format_0d_two_digits by assumption. reflexivity.
Qed.

(** On an integer number of seconds the two fields are the quotient and the
    remainder of the division by 60. *)
Lemma to_timestamp_int (n : Z) :
  time_to_seconds_to_timestamp (inject_Z n) = timestamp_text (n / 60) (n mod 60).
Proof.
  unfold time_to_seconds_to_timestamp, timestamp_text.
  assert (Hdiv : Py.floordiv (inject_Z n) 60 = inject_Z (n / 60)).
  { unfold Py.floordiv, Qdiv, Qinv, Qmult, Qfloor, inject_Z. cbn [Qnum Qden].
    rewrite Z.mul_1_r. reflexivity. }
  assert (Hmod : Py.int_of_float (Py.mod_ (inject_Z n) 60) = n mod 60).
  { unfold Py.mod_. rewrite Hdiv.
    unfold Py.int_of_float, Qminus, Qplus, Qopp, Qmult, inject_Z. cbn [Qnum Qden].
    change (Z.pos (1 * (1 * 1))) with 1. rewrite Z.quot_1_r, Z.mod_eq by lia. lia. }
  rewrite Hdiv, Hmod. unfold Py.int_of_float, inject_Z. cbn [Qnum Qden].
  rewrite Z.quot_1_r. reflexivity.
Qed.

Lemma to_seconds_of_timestamp (n : Z) :
  0 <= n -> time_to_seconds (time_to_seconds_to_timestamp (inject_Z n)) = Some n.
Proof.
  intros Hn. rewrite to_timestamp_int.
  pose proof (Z.mod_pos_bound n 60).
  rewrite time_to_seconds_timestamp_text by (try apply Z.div_pos; lia).
  f_equal. pose proof (Z.div_mod n 60). lia.
Qed.

(** Without a minus sign no component is negative. *)
Lemma digit_of_nonneg (c : ascii) (d : Z) : Py.digit_of c = Some d -> 0 <= d.
Proof.
  unfold Py.digit_of. destruct (Z.leb_spec 48 (Z.of_N (N_of_ascii c))) as [H48 | _];
    [| discriminate].
  destruct (Z.of_N (N_of_ascii c) <=? 57); [| discriminate].
  cbn. intros [= <-]. lia.
Qed.

Lemma int_digits_nonneg (s : string) :
  forall acc b n, 0 <= acc -> Py.int_digits acc b s = Some n -> 0 <= n.
Proof.
  induction s as [|c s IH]; intros acc b n Hacc; cbn [Py.int_digits].
  - destruct b; [intros [= <-]; exact Hacc | discriminate].
  - destruct (Ascii.eqb c "_").
    + destruct b; [apply IH; exact Hacc | discriminate].
    + destruct (Py.digit_of c) as [d|] eqn:Hd; [| discriminate].
      apply IH. apply digit_of_nonneg in Hd. lia.
Qed.

Lemma contains_lstrip (space : ascii -> bool) (x : ascii) (s : string) :
  Py.contains x s = false -> Py.contains x (Py.lstrip_by space s) = false.
Proof.
  induction s as [|c s IH]; [trivial |]. intros Hs. cbn [Py.lstrip_by].
  destruct (space c); [| exact Hs].
  apply IH. cbn [Py.contains] in Hs. destruct (Ascii.eqb c x); [discriminate | exact Hs].
Qed.

Lemma contains_rstrip (space : ascii -> bool) (x : ascii) (s : string) :
  Py.contains x s = false -> Py.contains x (Py.rstrip_by space s) = false.
Proof.
  induction s as [|c s IH]; [trivial |]. cbn [Py.contains Py.rstrip_by].
  destruct (Ascii.eqb c x) eqn:Hc; [discriminate |]. intros Hs. specialize (IH Hs).
  destruct (Py.rstrip_by space s) as [|c' r].
  - destruct (space c); [reflexivity |]. cbn [Py.contains]. rewrite Hc. reflexivity.
  - cbn [Py.contains] in *. rewrite Hc. exact IH.
Qed.

Lemma contains_strip_by (space : ascii -> bool) (x : ascii) (s : string) :
  Py.contains x s = false -> Py.contains x (Py.strip_by space s) = false.
Proof. intros Hs. apply contains_rstrip, contains_lstrip, Hs. Qed.

Lemma contains_strip (x : ascii) (s : string) :
  Py.contains x s = false -> Py.contains x (Py.strip s) = false.
Proof. apply contains_strip_by. Qed.

Lemma int_nonneg (s : string) (n : Z) :
  Py.contains "-" s = false -> Py.int s = Some n -> 0 <= n.
Proof.
  intros Hs. apply (contains_strip_by Py.isspace_c) in Hs. unfold Py.int.
  destruct (Py.strip_by Py.isspace_c s) as [|c r]; [discriminate |].
  cbn [Py.contains] in Hs. destruct (Ascii.eqb c "-"); [discriminate |].
  destruct (Ascii.eqb c "+"); apply int_digits_nonneg; lia.
Qed.

(** The fields of [split] are parts of the text. *)
Lemma split_fields_without (x sep : ascii) (s : string) :
  Py.contains x s = false ->
  Forall (fun w => Py.contains x w = false) (Py.split sep s).
Proof.
  induction s as [|c s IH]; cbn [Py.contains Py.split].
  - intros _. repeat constructor.
  - destruct (Ascii.eqb c x) eqn:Hc; [discriminate |]. intros Hs. specialize (IH Hs).
    destruct (Ascii.eqb c sep).
    + constructor; [reflexivity | exact IH].
    + destruct (Py.split sep s) as [|w ws].
      * repeat constructor. cbn [Py.contains]. rewrite Hc. reflexivity.
      * inversion IH as [|? ? Hw Hws]; subst. constructor; [| exact Hws].
        cbn [Py.contains]. rewrite Hc. exact Hw.
Qed.

(** No field of [split] holds the separator. *)
Lemma split_fields_no_sep (sep : ascii) (s : string) :
  Forall (fun w => Py.contains sep w = false) (Py.split sep s).
Proof.
  induction s as [|c s IH]; cbn [Py.split].
  - repeat constructor.
  - destruct (Ascii.eqb c sep) eqn:Hc.
    + constructor; [reflexivity | exact IH].
    + destruct (Py.split sep s) as [|w ws].
      * repeat constructor. cbn [Py.contains]. rewrite Hc. reflexivity.
      * inversion IH as [|? ? Hw Hws]; subst. constructor; [| exact Hws].
        cbn [Py.contains]. rewrite Hc. exact Hw.
Qed.

Lemma time_to_seconds_nonneg (timestamp : string) (n : Z) :
  Py.contains "-" timestamp = false -> time_to_seconds timestamp = Some n -> 0 <= n.
Proof.
  intros Hts. unfold time_to_seconds.
  destruct (mapM Py.int (Py.split ":" timestamp)) as [parts|] eqn:Hparts; [| discriminate].
  apply mapM_Some in Hparts.
  assert (Hpos : Forall (fun z => 0 <= z) parts).
  { pose proof (split_fields_without "-" ":" timestamp Hts) as Hfields.
    revert Hfields. induction Hparts as [|w z ws zs Hw _ IH]; intros Hfields; constructor.
    - inversion Hfields; subst. eapply int_nonneg; eassumption.
    - apply IH. inversion Hfields; assumption. }
  destruct parts as [|a [|b [|c [|d rest]]]]; try discriminate.
  - intros [= <-]. inversion Hpos as [|? ? Ha Hpos']; subst.
    inversion Hpos' as [|? ? Hb _]; subst. lia.
  - intros [= <-]. inversion Hpos as [|? ? Ha Hpos']; subst.
    inversion Hpos' as [|? ? Hb Hpos'']; subst. inversion Hpos'' as [|? ? Hc _]; subst. lia.
Qed.

(** ** The claims about the converter *)

(** C1 (as amended): [to_timestamp(125)] is ["02:05"] and [to_timestamp(3725)]
    is ["62:05"]: the minutes field is the whole quotient of the seconds by
    60, not reduced modulo 60, the seconds field is the remainder, and no
    hours field is written. *)
Theorem C1_to_timestamp_full_minutes :
  time_to_seconds_to_timestamp 125 = "02:05"
  /\ time_to_seconds_to_timestamp 3725 = "62:05"
  /\ forall n : Z,
       time_to_seconds_to_timestamp (inject_Z n)
       = Py.format_0d 2 (n / 60) +:+ ":" +:+ Py.format_0d 2 (n mod 60).
Proof.
  split; [reflexivity |]. split; [reflexivity |]. exact to_timestamp_int.
Qed.

(** C1, the claim as stated fails: [to_timestamp(3725)] is not ["02:05"]. *)
Lemma C1_counterexample : time_to_seconds_to_timestamp 3725 <> "02:05".
Proof. discriminate. Qed.

(** C3: for 0 <= m < 60 and 0 <= s < 60, [to_seconds] of the zero-padded
    two-digit text [MM:SS] gives a number whose [to_timestamp] is that text
    again. *)
Theorem C3_mmss_round_trip (m s : Z) :
  0 <= m < 60 -> 0 <= s < 60 ->
  exists n, time_to_seconds (mmss m s) = Some n
            /\ time_to_seconds_to_timestamp (inject_Z n) = mmss m s.
Proof.
  intros Hm Hs. rewrite mmss_timestamp_text by lia. exists (m * 60 + s). split.
  - apply time_to_seconds_timestamp_text; lia.
  - rewrite to_timestamp_int. f_equal.
    + rewrite Z.add_comm, Z.div_add by lia. rewrite Z.div_small by lia. reflexivity.
    + f_equal. rewrite Z.add_comm, Z.mod_add by lia. apply Z.mod_small; lia.
Qed.

Lemma C3_witness :
  mmss 2 5 = "02:05"
  /\ exists n, time_to_seconds (mmss 2 5) = Some n
               /\ time_to_seconds_to_timestamp (inject_Z n) = mmss 2 5.
Proof. split; [reflexivity | apply (C3_mmss_round_trip 2 5); lia]. Defined.

(** C4: a timestamp with exactly two integer components is worth
    minutes*60 + seconds, one with exactly three is worth
    hours*3600 + minutes*60 + seconds; ["1:30:00"] gives 5400 and ["02:05"]
    gives 125. *)
Theorem C4_to_seconds_components :
  (forall timestamp a b minutes seconds,
     Py.split ":" timestamp = [a; b] ->
     Py.int a = Some minutes -> Py.int b = Some seconds ->
     time_to_seconds timestamp = Some (minutes * 60 + seconds))
  /\ (forall timestamp a b c hours minutes seconds,
        Py.split ":" timestamp = [a; b; c] ->
        Py.int a = Some hours -> Py.int b = Some minutes -> Py.int c = Some seconds ->
        time_to_seconds timestamp = Some (hours * 3600 + minutes * 60 + seconds))
  /\ time_to_seconds "1:30:00" = Some 5400
  /\ time_to_seconds "02:05" = Some 125.
Proof.
  split; [exact time_to_seconds_two |]. split; [exact time_to_seconds_three |].
  split; reflexivity.
Qed.

Lemma C4_witness :
  time_to_seconds "7:08" = Some (7 * 60 + 8)
  /\ time_to_seconds "2:07:08" = Some (2 * 3600 + 7 * 60 + 8).
Proof.
  destruct C4_to_seconds_components as (Htwo & Hthree & _). split.
  - apply (Htwo "7:08" "7" "08"); reflexivity.
  - apply (Hthree "2:07:08" "2" "07" "08"); reflexivity.
Defined.

(** C7 (as amended): every result of [to_seconds] on a timestamp that holds
    no minus sign is a non-negative integer. *)
Theorem C7_seconds_nonneg_without_minus (timestamp : string) (n : Z) :
  Py.contains "-" timestamp = false ->
  time_to_seconds timestamp = Some n ->
  0 <= n.
Proof. apply time_to_seconds_nonneg. Qed.

Lemma C7_witness :
  Py.contains "-" "02:05" = false /\ time_to_seconds "02:05" = Some 125 /\ 0 <= 125.
Proof.
  split; [reflexivity |]. split; [reflexivity |].
  apply (C7_seconds_nonneg_without_minus "02:05" 125); reflexivity.
Defined.

(** C7, the claim as stated fails: [to_seconds("-1:00")] is -60. *)
Lemma C7_counterexample :
  time_to_seconds "-1:00" = Some (-60)
  /\ ~ (forall timestamp n, time_to_seconds timestamp = Some n -> 0 <= n).
Proof.
  split; [reflexivity |]. intros H. specialize (H "-1:00" (-60) eq_refl). lia.
Qed.

(** C9: for every non-negative integer n, [to_seconds(to_timestamp(n))] is
    n, also from 3600 on. *)
Theorem C9_to_seconds_inverts_to_timestamp (n : Z) :
  0 <= n -> time_to_seconds (time_to_seconds_to_timestamp (inject_Z n)) = Some n.
Proof. apply to_seconds_of_timestamp. Qed.

Lemma C9_witness :
  time_to_seconds_to_timestamp (inject_Z 3725) = "62:05"
  /\ time_to_seconds (time_to_seconds_to_timestamp (inject_Z 3725)) = Some 3725.
Proof. split; [reflexivity | apply (C9_to_seconds_inverts_to_timestamp 3725); lia]. Defined.

(** ** Facts about the reader *)

Lemma read_line_acc (timestamps : list (string * string)) (line : string) :
  read_line timestamps line
  = (fun added => timestamps ++ added) <$> read_line [] line.
Proof.
  unfold read_line. destruct (Py.contains "-" line); cbn.
  - destruct (Py.split "-" (Py.strip line)) as [|a [|b [|c rest]]]; reflexivity.
  - rewrite app_nil_r. reflexivity.
Qed.

(** When every line reads, the result is what the lines add, in file order;
    a line without the separator adds nothing. *)
Lemma read_lines_all_read (lines : list string) :
  forall timestamps,
    Forall (fun line => is_Some (read_line [] line)) lines ->
    read_lines timestamps lines = Some (timestamps ++ flat_map pair_of_line lines).
Proof.
  induction lines as [|line rest IH]; intros timestamps Hall; cbn [read_lines flat_map].
  - rewrite app_nil_r. reflexivity.
  - inversion Hall as [|? ? [added Hline] Hrest]; subst.
    rewrite read_line_acc, Hline. cbn. rewrite IH by exact Hrest.
    unfold pair_of_line at 2. rewrite Hline, app_assoc. reflexivity.
Qed.

Lemma pair_of_line_without_separator (line : string) :
  Py.contains "-" line = false -> read_line [] line = Some [] /\ pair_of_line line = [].
Proof. intros H. unfold pair_of_line, read_line. rewrite H. split; reflexivity. Qed.

(** One line that does not read makes the whole loop raise. *)
Lemma read_lines_raises (before after : list string) (line : string) :
  read_line [] line = None ->
  forall timestamps, read_lines timestamps (before ++ line :: after) = None.
Proof.
  intros Hline. induction before as [|l before IH]; intros timestamps; cbn [read_lines app].
  - rewrite read_line_acc, Hline. reflexivity.
  - destruct (read_line timestamps l); [apply IH | reflexivity].
Qed.

Lemma read_line_no_minus (timestamps timestamps' : list (string * string)) (line : string) :
  Forall no_minus timestamps -> read_line timestamps line = Some timestamps' ->
  Forall no_minus timestamps'.
Proof.
  intros Hacc. unfold read_line. destruct (Py.contains "-" line).
  - pose proof (split_fields_no_sep "-" (Py.strip line)) as Hfields.
    destruct (Py.split "-" (Py.strip line)) as [|a [|b [|c rest]]]; try discriminate.
    intros [= <-]. apply Forall_app. split; [exact Hacc |].
    inversion Hfields as [|? ? Ha Hfields']; subst.
    inversion Hfields' as [|? ? Hb _]; subst.
    repeat constructor; apply contains_strip; assumption.
  - intros [= <-]. exact Hacc.
Qed.

Lemma read_lines_no_minus (lines : list string) :
  forall timestamps timestamps',
    Forall no_minus timestamps -> read_lines timestamps lines = Some timestamps' ->
    Forall no_minus timestamps'.
Proof.
  induction lines as [|line rest IH]; intros timestamps timestamps' Hacc; cbn [read_lines].
  - intros [= <-]. exact Hacc.
  - destruct (read_line timestamps line) as [ts|] eqn:Hline; [| discriminate].
    apply IH. eapply read_line_no_minus; eassumption.
Qed.

Lemma read_timestamps_no_minus (file : option string) :
  Forall no_minus (read_timestamps file).
Proof.
  unfold read_timestamps. destruct file as [content|]; [| constructor].
  destruct (read_lines [] (Py.readlines content)) as [ts|] eqn:Hread; [| constructor].
  eapply read_lines_no_minus; [| exact Hread]. constructor.
Qed.

(** C5, where the code departs from the claim: a line with two separators
    cannot be split into a start-end pair, and the reader does not skip it:
    the unpacking raises, the handler of the whole function returns the empty
    list, and the pairs of the other lines are lost.  The same file without
    that line gives its two pairs. *)
Theorem C5_reader_aborts_on_second_separator :
  read_timestamps (Some "00:10-00:20
00:30-00:40-00:50
01:00-01:10
") = []
  /\ read_timestamps (Some "00:10-00:20
01:00-01:10
") = [("00:10", "00:20"); ("01:00", "01:10")].
Proof. split; reflexivity. Qed.

(** ** Facts about the validator *)

Section validator_facts.

Variable video_duration : Q.

Lemma adjust_pair_acc (adjusted : list (string * string))
    (p : string * string) :
  adjust_pair video_duration adjusted p = adjusted ++ adjust_pair video_duration [] p.
Proof.
  destruct p as [start end_]. unfold adjust_pair.
  destruct (check_pair video_duration start end_); rewrite ?app_nil_r; reflexivity.
Qed.

Lemma adjust_fold (timestamps : list (string * string)) :
  forall adjusted,
    fold_left (adjust_pair video_duration) timestamps adjusted
    = adjusted ++ flat_map (adjust_pair video_duration []) timestamps.
Proof.
  induction timestamps as [|p rest IH]; intros adjusted; cbn [fold_left flat_map].
  - rewrite app_nil_r. reflexivity.
  - rewrite IH, adjust_pair_acc, app_assoc. reflexivity.
Qed.

Lemma adjust_timestamps_flat_map (timestamps : list (string * string)) :
  adjust_timestamps video_duration timestamps
  = flat_map (adjust_pair video_duration []) timestamps.
Proof. unfold adjust_timestamps. rewrite adjust_fold. reflexivity. Qed.

Lemma adjust_timestamps_middle (before after : list (string * string))
    (p : string * string) :
  adjust_timestamps video_duration (before ++ p :: after)
  = adjust_timestamps video_duration before
    ++ adjust_pair video_duration [] p ++ adjust_timestamps video_duration after.
Proof. rewrite !adjust_timestamps_flat_map, flat_map_app. reflexivity. Qed.

Lemma check_pair_invalid (start end_ : string) :
  time_to_seconds start = None \/ time_to_seconds end_ = None ->
  check_pair video_duration start end_ = SkipInvalid.
Proof.
  unfold check_pair. intros [H | H]; rewrite H; [reflexivity |].
  destruct (time_to_seconds start); reflexivity.
Qed.

Lemma check_pair_start (start end_ : string) (start_sec end_sec : Z) :
  time_to_seconds start = Some start_sec -> time_to_seconds end_ = Some end_sec ->
  (video_duration <= inject_Z start_sec)%Q ->
  check_pair video_duration start end_ = SkipStart.
Proof.
  intros Hs He Hle. unfold check_pair. rewrite Hs, He.
  apply Qle_bool_iff in Hle. rewrite Hle. reflexivity.
Qed.

Lemma Qle_bool_false (x y : Q) : (y < x)%Q -> Qle_bool x y = false.
Proof.
  intros Hlt. destruct (Qle_bool x y) eqn:Hle; [| reflexivity].
  apply Qle_bool_iff in Hle. exfalso. exact (Qlt_not_le _ _ Hlt Hle).
Qed.

Lemma check_pair_end (start end_ : string) (start_sec end_sec : Z) :
  time_to_seconds start = Some start_sec -> time_to_seconds end_ = Some end_sec ->
  (inject_Z start_sec < video_duration)%Q -> (video_duration < inject_Z end_sec)%Q ->
  check_pair video_duration start end_ = AdjustEnd.
Proof.
  intros Hs He Hstart Hend. unfold check_pair. rewrite Hs, He.
  rewrite !Qle_bool_false by assumption. reflexivity.
Qed.

Lemma check_pair_keep (start end_ : string) (start_sec end_sec : Z) :
  time_to_seconds start = Some start_sec -> time_to_seconds end_ = Some end_sec ->
  (inject_Z start_sec < video_duration)%Q -> (inject_Z end_sec <= video_duration)%Q ->
  check_pair video_duration start end_ = Keep.
Proof.
  intros Hs He Hstart Hend. unfold check_pair. rewrite Hs, He.
  rewrite Qle_bool_false by assumption. apply Qle_bool_iff in Hend. rewrite Hend. reflexivity.
Qed.

End validator_facts.

(** C2: a pair of the input with a failed conversion is dropped; one whose
    start is at or after the duration is dropped; otherwise one whose end is
    after the duration is kept with [to_timestamp(duration)] as its end;
    otherwise it is kept as it is.  With duration 100.0 the input
    [("00:50","01:50"), ("02:00","02:10")] gives exactly [("00:50","01:40")]. *)
Theorem C2_validator_rules (video_duration : Q) (before after : list (string * string))
    (start end_ : string) :
  let gives kept :=
    adjust_timestamps video_duration (before ++ (start, end_) :: after)
    = adjust_timestamps video_duration before ++ kept
      ++ adjust_timestamps video_duration after in
  (time_to_seconds start = None \/ time_to_seconds end_ = None -> gives [])
  /\ (forall start_sec end_sec,
        time_to_seconds start = Some start_sec -> time_to_seconds end_ = Some end_sec ->
        ((video_duration <= inject_Z start_sec)%Q -> gives [])
        /\ ((inject_Z start_sec < video_duration)%Q ->
            (video_duration < inject_Z end_sec)%Q ->
            gives [(start, time_to_seconds_to_timestamp video_duration)])
        /\ ((inject_Z start_sec < video_duration)%Q ->
            (inject_Z end_sec <= video_duration)%Q ->
            gives [(start, end_)]))
  /\ adjust_timestamps 100 [("00:50", "01:50"); ("02:00", "02:10")] = [("00:50", "01:40")].
Proof.
  cbv zeta. split; [| split; [| reflexivity]].
  - intros Hnone. rewrite adjust_timestamps_middle. unfold adjust_pair.
    rewrite check_pair_invalid by exact Hnone. reflexivity.
  - intros start_sec end_sec Hs He. repeat split.
    + intros Hle. rewrite adjust_timestamps_middle. unfold adjust_pair.
      rewrite (check_pair_start _ _ _ _ _ Hs He Hle). reflexivity.
    + intros Hstart Hend. rewrite adjust_timestamps_middle. unfold adjust_pair.
      rewrite (check_pair_end _ _ _ _ _ Hs He Hstart Hend). reflexivity.
    + intros Hstart Hend. rewrite adjust_timestamps_middle. unfold adjust_pair.
      rewrite (check_pair_keep _ _ _ _ _ Hs He Hstart Hend). reflexivity.
Qed.

Lemma C2_witness :
  adjust_timestamps 100 ([("00:10", "00:20")] ++ ("00:50", "01:50") :: [("02:00", "02:10")])
  = adjust_timestamps 100 [("00:10", "00:20")]
    ++ [("00:50", time_to_seconds_to_timestamp 100)]
    ++ adjust_timestamps 100 [("02:00", "02:10")].
Proof.
  destruct (C2_validator_rules 100 [("00:10", "00:20")] [("02:00", "02:10")] "00:50" "01:50")
    as (_ & Hrules & _).
  destruct (Hrules 50 110 eq_refl eq_refl) as (_ & Hclamp & _).
  apply Hclamp; reflexivity.
Defined.

(** C6: the output of the validator is a subsequence of its input up to the
    end fields: it is not longer, the kept pairs come in the order of the
    input, each kept pair has the start field of the input pair it comes from,
    and its end field is that pair's or the clamp [to_timestamp(duration)]. *)
Theorem C6_validator_subsequence (video_duration : Q) (timestamps : list (string * string)) :
  (length (adjust_timestamps video_duration timestamps) <= length timestamps)%nat
  /\ exists kept,
       kept `sublist_of` timestamps
       /\ Forall2 (fun out inp =>
                     out.1 = inp.1
                     /\ (out.2 = inp.2
                         \/ out.2 = time_to_seconds_to_timestamp video_duration))
            (adjust_timestamps video_duration timestamps) kept.
Proof.
  rewrite adjust_timestamps_flat_map.
  induction timestamps as [|[start end_] rest [IHlen (kept & IHsub & IHall)]];
    cbn [flat_map].
  - split; [reflexivity |]. exists []. split; constructor.
  - unfold adjust_pair at 1 3. destruct (check_pair video_duration start end_); cbn [app length].
    + split; [lia |]. exists kept. split; [apply sublist_cons |]; assumption.
    + split; [lia |]. exists kept. split; [apply sublist_cons |]; assumption.
    + split; [lia |]. exists ((start, end_) :: kept).
      split; [apply sublist_skip; assumption |]. constructor; [| assumption].
      split; [reflexivity | right; reflexivity].
    + split; [lia |]. exists ((start, end_) :: kept).
      split; [apply sublist_skip; assumption |]. constructor; [| assumption].
      split; [reflexivity | left; reflexivity].
Qed.

Lemma Qle_bool_zero (n : Z) : 0 <= n -> Qle_bool 0 (inject_Z n) = true.
Proof. intros Hn. apply Qle_bool_iff. unfold Qle, inject_Z. cbn [Qnum Qden]. lia. Qed.

Lemma check_pair_zero_duration (start end_ : string) :
  (forall start_sec, time_to_seconds start = Some start_sec -> 0 <= start_sec) ->
  check_pair 0 start end_ = SkipInvalid \/ check_pair 0 start end_ = SkipStart.
Proof.
  intros Hstart. unfold check_pair.
  destruct (time_to_seconds start) as [start_sec|]; [| left; reflexivity].
  destruct (time_to_seconds end_) as [end_sec|]; [| left; reflexivity].
  rewrite Qle_bool_zero by (apply Hstart; reflexivity). right. reflexivity.
Qed.

Lemma adjust_pair_zero_duration (adjusted : list (string * string)) (start end_ : string) :
  (forall start_sec, time_to_seconds start = Some start_sec -> 0 <= start_sec) ->
  adjust_pair 0 adjusted (start, end_) = adjusted.
Proof.
  intros Hstart. unfold adjust_pair.
  destruct (check_pair_zero_duration start end_ Hstart) as [-> | ->]; reflexivity.
Qed.

Lemma adjust_timestamps_zero_duration (timestamps : list (string * string)) :
  Forall (fun p => forall start_sec, time_to_seconds p.1 = Some start_sec -> 0 <= start_sec)
    timestamps ->
  adjust_timestamps 0 timestamps = [].
Proof.
  intros Hall. rewrite adjust_timestamps_flat_map.
  induction Hall as [|[start end_] rest Hp _ IH]; [reflexivity |].
  cbn [flat_map]. rewrite IH, app_nil_r. apply adjust_pair_zero_duration. exact Hp.
Qed.

Lemma adjust_read_zero_duration (file : option string) :
  adjust_timestamps 0 (read_timestamps file) = [].
Proof.
  apply adjust_timestamps_zero_duration.
  eapply Forall_impl; [apply read_timestamps_no_minus |].
  intros [start end_] [Hstart _] start_sec. apply time_to_seconds_nonneg. exact Hstart.
Qed.

(** ** Facts about the extractor *)

Lemma remove_temp_gone (env : clip_env) (path : string) (fs : filesystem) :
  remove_refused env = false -> remove_temp env path fs !! path = None.
Proof.
  intros Hrefused. unfold remove_temp, os_remove. rewrite Hrefused.
  destruct (fs !! path) eqn:Hpath; [apply lookup_delete_eq | exact Hpath].
Qed.

(** When the deletion is not refused, every branch that tries it leaves no
    temporary file behind. *)
Lemma process_clip_removes_temp (env : clip_env) (folder : string) (idx : nat)
    (p : string * string) (fs : filesystem) :
  remove_refused env = false ->
  removal_attempted (process_clip env folder idx p fs).2 = true ->
  (process_clip env folder idx p fs).1 !! temp_path folder idx = None.
Proof.
  intros Hrefused. destruct p as [start end_]. unfold process_clip.
  destruct (time_to_seconds start); [| discriminate].
  destruct (time_to_seconds end_); [| discriminate].
  destruct (extract_raises env); [discriminate |].
  destruct (write_file _ _ fs !! temp_path folder idx) as [[|size]|] eqn:Htemp;
    [discriminate | | discriminate].
  destruct (test_open env) as [test_duration|]; [| discriminate].
  unfold os_remove. rewrite Hrefused, Htemp.
  destruct (Qeq_bool test_duration 0); [intros _; apply lookup_delete_eq |].
  destruct (clip_open env) as [[duration fps]|];
    [| intros _; apply remove_temp_gone; exact Hrefused].
  destruct (Qeq_bool duration 0); [intros _; apply lookup_delete_eq |].
  intros _. apply remove_temp_gone; exact Hrefused.
Qed.

(** An extraction that raises after it wrote a file leaves that file: the
    handler of lines 82-84 goes on to the next pair. *)
Lemma extract_error_leaves_temp (env : clip_env) (folder : string) (idx : nat)
    (start end_ : string) (fs : filesystem) (size : N) :
  is_Some (time_to_seconds start) -> is_Some (time_to_seconds end_) ->
  extract_raises env = true -> extract_leaves env = Some size ->
  (process_clip env folder idx (start, end_) fs).2 = ExtractError
  /\ (process_clip env folder idx (start, end_) fs).1 !! temp_path folder idx = Some size.
Proof.
  intros [start_sec Hs] [end_sec He] Hraises Hleaves. unfold process_clip.
  rewrite Hs, He, Hraises, Hleaves. cbn [write_file].
  split; [reflexivity | apply lookup_insert_eq].
Qed.

(** The branch of line 72 leaves the empty file it found. *)
Lemma empty_extract_leaves_temp (env : clip_env) (folder : string) (idx : nat)
    (start end_ : string) (fs : filesystem) :
  is_Some (time_to_seconds start) -> is_Some (time_to_seconds end_) ->
  extract_raises env = false -> extract_leaves env = Some 0%N ->
  (process_clip env folder idx (start, end_) fs).2 = EmptyExtract
  /\ (process_clip env folder idx (start, end_) fs).1 !! temp_path folder idx = Some 0%N.
Proof.
  intros [start_sec Hs] [end_sec He] Hraises Hleaves. unfold process_clip.
  rewrite Hs, He, Hraises, Hleaves. cbn [write_file].
  rewrite lookup_insert_eq. split; [reflexivity | apply lookup_insert_eq].
Qed.

(** C8, where the code departs from the claim: when the extraction gives a
    file of size zero the iteration leaves by the [continue] of line 72 and
    the temporary file is still there afterwards, although the deletion is
    not refused; the zero-duration branch next to it deletes the file. *)
Theorem C8_temp_file_left_after_empty_extract :
  process_clip empty_extract_env "out" 0 ("00:10", "00:20") ∅
  = ({["out/temp_clip_1.mp4" := 0%N]}, EmptyExtract)
  /\ (process_clip empty_extract_env "out" 0 ("00:10", "00:20") ∅).1
     !! temp_path "out" 0 = Some 0%N
  /\ process_clip zero_duration_env "out" 0 ("00:10", "00:20") ∅ = (∅, ZeroDuration).
Proof. split; [| split]; vm_compute; reflexivity. Qed.

(** ** The failed duration probe *)

Lemma extract_nothing (envs : nat -> clip_env) (video folder : string) (fs : filesystem) :
  extract_and_resize_clips envs video [] folder fs = (fs, []).
Proof. reflexivity. Qed.

Lemma main_failed_probe (w : world) (fs : filesystem) :
  video_probe w = None -> main w fs = (fs, []).
Proof.
  intros Hprobe. unfold main. rewrite Hprobe. cbn [get_video_duration].
  rewrite adjust_read_zero_duration, extract_nothing.
  destruct (fs !! video_path); [destruct (fs !! timestamps_file) |]; reflexivity.
Qed.

(** C10: when the probe fails [get_video_duration] gives 0; with duration 0
    a pair whose start converts to a non-negative value is dropped (by the
    start rule whenever its end converts too), a list of such pairs gives no
    validated pair, and the run produces no clip and changes no file. *)
Theorem C10_failed_probe_drops_every_pair :
  get_video_duration None = 0%Q
  /\ (forall adjusted start end_ start_sec,
        time_to_seconds start = Some start_sec -> 0 <= start_sec ->
        adjust_pair 0 adjusted (start, end_) = adjusted
        /\ (forall end_sec, time_to_seconds end_ = Some end_sec ->
              check_pair 0 start end_ = SkipStart))
  /\ (forall timestamps,
        Forall (fun p => exists start_sec,
                  time_to_seconds p.1 = Some start_sec /\ 0 <= start_sec) timestamps ->
        adjust_timestamps (get_video_duration None) timestamps = [])
  /\ (forall w fs, video_probe w = None -> main w fs = (fs, [])).
Proof.
  split; [reflexivity |]. split; [| split].
  - intros adjusted start end_ start_sec Hs Hpos. split.
    + apply adjust_pair_zero_duration. intros s' Hs'. congruence.
    + intros end_sec He. apply (check_pair_start _ _ _ _ _ Hs He).
      unfold Qle, inject_Z. cbn [Qnum Qden]. lia.
  - intros timestamps Hall. apply adjust_timestamps_zero_duration.
    eapply Forall_impl; [exact Hall |].
    intros [start end_] (start_sec & Hs & Hpos) s' Hs'. cbn in *. congruence.
  - exact main_failed_probe.
Qed.

Lemma C10_witness :
  adjust_pair 0 [] ("00:10", "00:20") = []
  /\ check_pair 0 "00:10" "00:20" = SkipStart
  /\ adjust_timestamps (get_video_duration None) [("00:10", "00:20"); ("00:00", "x")] = [].
Proof.
  destruct C10_failed_probe_drops_every_pair as (_ & Hpair & Hlist & _).
  destruct (Hpair [] "00:10" "00:20" 10 eq_refl ltac:(lia)) as [Hdrop Hrule].
  split; [exact Hdrop |]. split; [exact (Hrule 20 eq_refl) |].
  apply Hlist. repeat constructor.
  - exists 10. split; [reflexivity | lia].
  - exists 0. split; [reflexivity | lia].
Defined.

(** * Further properties of the program *)

(** ** Counting separators *)

Lemma split_length (sep : ascii) (s : string) :
  length (Py.split sep s) = S (count_char sep s).
Proof.
  induction s as [|c s IH]; [reflexivity |]. cbn [Py.split count_char].
  destruct (Ascii.eqb c sep); cbn [length Nat.add]; [f_equal; exact IH |].
  destruct (Py.split sep s); cbn [length] in *; [discriminate | exact IH].
Qed.

Lemma contains_count (x : ascii) (s : string) :
  Py.contains x s = false <-> count_char x s = O.
Proof.
  induction s as [|c s IH]; cbn [Py.contains count_char]; [tauto |].
  destruct (Ascii.eqb c x); cbn [Nat.add]; [split; discriminate | exact IH].
Qed.

Lemma count_lstrip (space : ascii -> bool) (x : ascii) (s : string) :
  space x = false -> count_char x (Py.lstrip_by space s) = count_char x s.
Proof.
  intros Hx. induction s as [|c s IH]; [reflexivity |]. cbn [Py.lstrip_by].
  destruct (space c) eqn:Hc; [| reflexivity]. rewrite IH. cbn [count_char].
  destruct (Ascii.eqb_spec c x) as [-> | _]; [congruence | reflexivity].
Qed.

Lemma count_rstrip (space : ascii -> bool) (x : ascii) (s : string) :
  space x = false -> count_char x (Py.rstrip_by space s) = count_char x s.
Proof.
  intros Hx. induction s as [|c s IH]; [reflexivity |]. cbn [Py.rstrip_by count_char].
  rewrite <- IH. destruct (Py.rstrip_by space s) as [|c' r]; [| reflexivity].
  destruct (space c) eqn:Hc; [| reflexivity]. cbn [count_char].
  destruct (Ascii.eqb_spec c x) as [-> | _]; [congruence | reflexivity].
Qed.

Lemma count_strip (x : ascii) (s : string) :
  Py.isspace x = false -> count_char x (Py.strip s) = count_char x s.
Proof.
  intros Hx. unfold Py.strip, Py.strip_by. rewrite count_rstrip, count_lstrip by exact Hx.
  reflexivity.
Qed.

(** ** More on the converter *)

Lemma int_digits_zeros_str_nat (k : nat) (n : Z) (b : bool) :
  0 <= n -> Py.int_digits 0 b (Py.zeros k +:+ Py.str_nat n) = Some n.
Proof.
  intros Hn. destruct k as [|k]; [apply int_digits_str_nat; exact Hn |].
  cbn [Py.zeros]. rewrite append_cons, (int_digits_digit 0 0) by lia.
  change (10 * 0 + 0) with 0. rewrite int_digits_zeros. apply int_digits_str_nat; exact Hn.
Qed.

Lemma format_0d_negative (width : nat) (n : Z) :
  n < 0 ->
  Py.format_0d width n
  = String "-" (Py.zeros (width - 1 - String.length (Py.str_nat (- n))) +:+ Py.str_nat (- n)).
Proof.
  intros Hn. unfold Py.format_0d.
  destruct (Z.ltb_spec n 0) as [_ | Hge]; [| lia].
  rewrite Z.abs_neq by lia. reflexivity.
Qed.

(** Every field written is read back by [int], whatever its sign. *)
Lemma int_format_0d_signed (width : nat) (n : Z) : Py.int (Py.format_0d width n) = Some n.
Proof.
  destruct (Z.lt_ge_cases n 0) as [Hneg | Hpos]; [| apply int_format_0d; exact Hpos].
  rewrite format_0d_negative by exact Hneg.
  set (body := Py.zeros _ +:+ _).
  assert (Hbody : string_forall digit body).
  { apply string_forall_app; [apply zeros_digits | apply str_nat_digits; lia]. }
  unfold Py.int. rewrite strip_no_space.
  - change (Ascii.eqb "-" "+") with false. change (Ascii.eqb "-" "-") with true.
    cbv iota. unfold body. rewrite int_digits_zeros_str_nat by lia.
    cbn. f_equal. lia.
  - split; [reflexivity |]. revert Hbody. apply string_forall_impl. exact digit_not_space.
Qed.

Lemma format_0d_no_colon (width : nat) (n : Z) :
  Py.contains ":" (Py.format_0d width n) = false.
Proof.
  destruct (Z.lt_ge_cases n 0) as [Hneg | Hpos].
  - rewrite format_0d_negative by exact Hneg. cbn [Py.contains].
    change (Ascii.eqb "-" ":") with false. cbv iota.
    apply digits_no_char; [reflexivity |].
    apply string_forall_app; [apply zeros_digits | apply str_nat_digits; lia].
  - apply digits_no_char; [reflexivity | apply format_0d_digits; exact Hpos].
Qed.

Lemma time_to_seconds_timestamp_text_signed (m s : Z) :
  time_to_seconds (timestamp_text m s) = Some (m * 60 + s).
Proof.
  apply (time_to_seconds_two _ (Py.format_0d 2 m) (Py.format_0d 2 s)).
  - unfold timestamp_text.
    change (":" +:+ Py.format_0d 2 s) with (String ":" (Py.format_0d 2 s)).
    rewrite split_app, split_no_sep by apply format_0d_no_colon. reflexivity.
  - apply int_format_0d_signed.
  - apply int_format_0d_signed.
Qed.

(** The two fields of a fractional number of seconds are those of its
    integer part. *)
Lemma floordiv_60 (seconds : Q) :
  Py.int_of_float (Py.floordiv seconds 60) = Qfloor seconds / 60.
Proof.
  destruct seconds as [a b].
  unfold Py.floordiv, Py.int_of_float, Qdiv, Qinv, Qmult, Qfloor, inject_Z. cbn [Qnum Qden].
  rewrite Z.quot_1_r, Z.mul_1_r, Pos2Z.inj_mul, Z.div_div by lia. reflexivity.
Qed.

Lemma mod_60 (seconds : Q) :
  Py.int_of_float (Py.mod_ seconds 60) = Qfloor seconds mod 60.
Proof.
  destruct seconds as [a b].
  unfold Py.mod_, Py.floordiv, Py.int_of_float, Qminus, Qplus, Qopp, Qdiv, Qinv, Qmult,
    Qfloor, inject_Z. cbn [Qnum Qden].
  rewrite !Z.mul_1_r, Pos2Z.inj_mul, <- Z.div_div by lia.
  change (Z.pos (b * (1 * 1))) with (Z.pos (b * 1)). rewrite Pos.mul_1_r.
  set (q := a / Z.pos b).
  assert (Hq : Z.pos b * q <= a < Z.pos b * (q + 1)).
  { unfold q. pose proof (Z.mul_div_le a (Z.pos b) ltac:(lia)).
    pose proof (Z.mul_succ_div_gt a (Z.pos b) ltac:(lia)). lia. }
  pose proof (Z.mod_pos_bound q 60 ltac:(lia)) as Hmod.
  pose proof (Z.div_mod q 60 ltac:(lia)) as Hdm.
  assert (Hnum : a + - (60 * (q / 60)) * Z.pos b
                 = a - Z.pos b * q + Z.pos b * (q mod 60)) by nia.
  rewrite Hnum, Z.quot_div_nonneg by nia.
  rewrite Z.add_comm, Z.mul_comm, Z.div_add_l by lia.
  rewrite Z.div_small by lia. lia.
Qed.

Lemma to_timestamp_fields (seconds : Q) :
  time_to_seconds_to_timestamp seconds
  = timestamp_text (Qfloor seconds / 60) (Qfloor seconds mod 60).
Proof.
  unfold time_to_seconds_to_timestamp, timestamp_text. rewrite floordiv_60, mod_60. reflexivity.
Qed.

Lemma to_seconds_of_timestamp_floor (seconds : Q) :
  time_to_seconds (time_to_seconds_to_timestamp seconds) = Some (Qfloor seconds).
Proof.
  rewrite to_timestamp_fields, time_to_seconds_timestamp_text_signed.
  f_equal. pose proof (Z.div_mod (Qfloor seconds) 60). lia.
Qed.



(** X3: a timestamp that converts has one or two colons: a plain number of
    seconds and a text with four fields or more give no result. *)
Theorem to_seconds_needs_one_or_two_colons (timestamp : string) (n : Z) :
  time_to_seconds timestamp = Some n ->
  count_char ":" timestamp = 1%nat \/ count_char ":" timestamp = 2%nat.
Proof.
  unfold time_to_seconds. pose proof (split_length ":" timestamp) as Hlen.
  destruct (mapM Py.int (Py.split ":" timestamp)) as [parts|] eqn:Hparts; [| discriminate].
  apply length_mapM in Hparts. rewrite Hlen in Hparts.
  destruct parts as [|a [|b [|c [|d rest]]]]; try discriminate; cbn [length] in Hparts;
    intros _; [left | right]; lia.
Qed.

Lemma to_seconds_needs_one_or_two_colons_witness :
  count_char ":" "1:30:00" = 1%nat \/ count_char ":" "1:30:00" = 2%nat.
Proof. apply (to_seconds_needs_one_or_two_colons "1:30:00" 5400). reflexivity. Defined.

(** X4: an hours field in front of a two-field timestamp adds 3600 seconds
    for each hour. *)
Theorem to_seconds_hours_prefix (hours_text rest : string) (hours n : Z) :
  Py.contains ":" hours_text = false -> Py.int hours_text = Some hours ->
  count_char ":" rest = 1%nat -> time_to_seconds rest = Some n ->
  time_to_seconds (hours_text +:+ String ":" rest) = Some (hours * 3600 + n).
Proof.
  intros Hnocolon Hhours Hcount. unfold time_to_seconds.
  rewrite split_app by exact Hnocolon.
  pose proof (split_length ":" rest) as Hlen. rewrite Hcount in Hlen.
  destruct (Py.split ":" rest) as [|a [|b [|c more]]]; try discriminate.
  cbn. rewrite Hhours. cbn.
  destruct (Py.int a) as [minutes|]; [| discriminate]. cbn.
  destruct (Py.int b) as [seconds|]; [| discriminate]. cbn.
  intros [= <-]. f_equal. lia.
Qed.

Lemma to_seconds_hours_prefix_witness :
  time_to_seconds ("2" +:+ String ":" "07:08") = Some (2 * 3600 + 428).
Proof. apply to_seconds_hours_prefix; reflexivity. Defined.

(** ** More on the reader *)

Lemma rstrip_idempotent (space : ascii -> bool) (s : string) :
  Py.rstrip_by space (Py.rstrip_by space s) = Py.rstrip_by space s.
Proof.
  induction s as [|c s IH]; [reflexivity |]. cbn [Py.rstrip_by].
  destruct (Py.rstrip_by space s) as [|c' r] eqn:Hr.
  - destruct (space c) eqn:Hc; [reflexivity |]. cbn [Py.rstrip_by]. rewrite Hc. reflexivity.
  - change (Py.rstrip_by space (String c (String c' r)))
      with (match Py.rstrip_by space (String c' r) with
            | EmptyString => if space c then EmptyString else String c EmptyString
            | String c0 r0 => String c (String c0 r0)
            end).
    rewrite IH. reflexivity.
Qed.

Lemma lstrip_head (space : ascii -> bool) (s : string) :
  match Py.lstrip_by space s with
  | EmptyString => True
  | String c _ => space c = false
  end.
Proof.
  induction s as [|c s IH]; [exact I |]. cbn [Py.lstrip_by].
  destruct (space c) eqn:Hc; [exact IH | exact Hc].
Qed.

Lemma rstrip_keeps_head (space : ascii -> bool) (c : ascii) (s : string) :
  space c = false -> exists r, Py.rstrip_by space (String c s) = String c r.
Proof.
  intros Hc. cbn [Py.rstrip_by]. destruct (Py.rstrip_by space s) as [|c' r].
  - rewrite Hc. exists EmptyString. reflexivity.
  - exists (String c' r). reflexivity.
Qed.

Lemma strip_idempotent (space : ascii -> bool) (s : string) :
  Py.strip_by space (Py.strip_by space s) = Py.strip_by space s.
Proof.
  unfold Py.strip_by. pose proof (lstrip_head space s) as Hhead.
  destruct (Py.lstrip_by space s) as [|c t]; [reflexivity |].
  destruct (rstrip_keeps_head space c t Hhead) as [r Hr]. rewrite Hr.
  cbn [Py.lstrip_by]. rewrite Hhead, <- Hr. apply rstrip_idempotent.
Qed.

Lemma read_line_one_separator (line : string) :
  (count_char "-" line <= 1)%nat -> read_line [] line = Some (line_pair line).
Proof.
  intros Hcount. unfold read_line, line_pair.
  pose proof (split_length "-" (Py.strip line)) as Hlen.
  rewrite (count_strip "-" line eq_refl) in Hlen.
  destruct (Py.contains "-" line) eqn:Hin.
  - assert (count_char "-" line <> O) as Hne.
    { intros H0. apply contains_count in H0. congruence. }
    destruct (Py.split "-" (Py.strip line)) as [|a [|b [|c rest]]];
      cbn [length] in Hlen; try lia. reflexivity.
  - apply contains_count in Hin. rewrite Hin in Hlen.
    destruct (Py.split "-" (Py.strip line)) as [|a [|b rest]]; cbn [length] in Hlen;
      try lia; reflexivity.
Qed.

Lemma read_line_more_separators (line : string) :
  (2 <= count_char "-" line)%nat -> read_line [] line = None.
Proof.
  intros Hcount. unfold read_line.
  pose proof (split_length "-" (Py.strip line)) as Hlen.
  rewrite (count_strip "-" line eq_refl) in Hlen.
  destruct (Py.contains "-" line) eqn:Hin.
  - destruct (Py.split "-" (Py.strip line)) as [|a [|b [|c rest]]];
      cbn [length] in Hlen; try lia; reflexivity.
  - apply contains_count in Hin. lia.
Qed.

(** X5: when no line of the file has more than one separator, the reader
    returns, in file order, one pair for each line that has one, made of the
    two stripped sides; the other lines are skipped. *)
Theorem reader_pairs_in_file_order (content : string) :
  Forall (fun line => (count_char "-" line <= 1)%nat) (Py.readlines content) ->
  read_timestamps (Some content) = flat_map line_pair (Py.readlines content).
Proof.
  intros Hall. unfold read_timestamps. rewrite read_lines_all_read.
  - cbn [app]. induction Hall as [|line rest Hline _ IH]; [reflexivity |].
    cbn [flat_map]. rewrite IH. f_equal.
    unfold pair_of_line. rewrite read_line_one_separator by exact Hline. reflexivity.
  - eapply Forall_impl; [exact Hall |]. intros line Hline.
    rewrite read_line_one_separator by exact Hline. eexists. reflexivity.
Qed.

Lemma reader_pairs_in_file_order_witness :
  read_timestamps (Some "00:10 - 00:20
garbage

00:30-00:40") = [("00:10", "00:20"); ("00:30", "00:40")].
Proof.
  rewrite reader_pairs_in_file_order; [reflexivity |].
  vm_compute. repeat constructor.
Defined.

(** X6: one line with two separators or more, anywhere in the file, makes
    the reader return the empty list. *)
Theorem reader_empty_on_extra_separator (content line : string) :
  In line (Py.readlines content) -> (2 <= count_char "-" line)%nat ->
  read_timestamps (Some content) = [].
Proof.
  intros Hin Hcount. apply in_split in Hin as (before & after & Hlines).
  unfold read_timestamps. rewrite Hlines.
  rewrite read_lines_raises by (apply read_line_more_separators; exact Hcount).
  reflexivity.
Qed.

Lemma reader_empty_on_extra_separator_witness :
  read_timestamps (Some "00:10-00:20
2024-01-01 00:10-00:20
") = [].
Proof.
  apply (reader_empty_on_extra_separator _ "2024-01-01 00:10-00:20
").
  - right. left. reflexivity.
  - vm_compute. lia.
Defined.

(** X7: every timestamp the reader returns is stripped and holds no
    separator. *)
Theorem reader_fields_stripped (file : option string) :
  Forall (fun p => Py.strip p.1 = p.1 /\ Py.strip p.2 = p.2
                   /\ Py.contains "-" p.1 = false /\ Py.contains "-" p.2 = false)
    (read_timestamps file).
Proof.
  assert (Hline : forall line acc acc',
    Forall (fun p => Py.strip p.1 = p.1 /\ Py.strip p.2 = p.2) acc ->
    read_line acc line = Some acc' ->
    Forall (fun p => Py.strip p.1 = p.1 /\ Py.strip p.2 = p.2) acc').
  { intros line acc acc' Hacc. unfold read_line. destruct (Py.contains "-" line).
    - destruct (Py.split "-" (Py.strip line)) as [|a [|b [|c rest]]]; try discriminate.
      intros [= <-]. apply Forall_app. split; [exact Hacc |].
      repeat constructor; apply strip_idempotent.
    - intros [= <-]. exact Hacc. }
  assert (Hlines : forall lines acc acc',
    Forall (fun p => Py.strip p.1 = p.1 /\ Py.strip p.2 = p.2) acc ->
    read_lines acc lines = Some acc' ->
    Forall (fun p => Py.strip p.1 = p.1 /\ Py.strip p.2 = p.2) acc').
  { induction lines as [|line rest IH]; intros acc acc' Hacc; cbn [read_lines].
    - intros [= <-]. exact Hacc.
    - destruct (read_line acc line) as [acc1|] eqn:H1; [| discriminate].
      apply IH. eapply Hline; eassumption. }
  assert (Hstripped : Forall (fun p => Py.strip p.1 = p.1 /\ Py.strip p.2 = p.2)
                        (read_timestamps file)).
  { unfold read_timestamps. destruct file as [content|]; [| constructor].
    destruct (read_lines [] (Py.readlines content)) as [ts|] eqn:Hread; [| constructor].
    eapply Hlines; [| exact Hread]. constructor. }
  pose proof (read_timestamps_no_minus file) as Hminus.
  rewrite Forall_forall in *. intros p Hp.
  destruct (Hstripped p Hp) as [H1 H2]. destruct (Hminus p Hp) as [H3 H4]. auto.
Qed.

(** ** More on the validator *)

Section validator_invariant.

Variable video_duration : Q.

Lemma check_pair_keep_inv (start end_ : string) :
  check_pair video_duration start end_ = Keep -> within video_duration (start, end_).
Proof.
  unfold check_pair, within. cbn [fst snd].
  destruct (time_to_seconds start) as [start_sec|]; [| discriminate].
  destruct (time_to_seconds end_) as [end_sec|]; [| discriminate].
  destruct (Qle_bool video_duration (inject_Z start_sec)) eqn:Hstart; [discriminate |].
  destruct (Qle_bool (inject_Z end_sec) video_duration) eqn:Hend; [| discriminate].
  intros _. exists start_sec, end_sec. repeat split.
  - apply Qnot_le_lt. intros Hle. apply Qle_bool_iff in Hle. congruence.
  - apply Qle_bool_iff. exact Hend.
Qed.

Lemma check_pair_adjust_inv (start end_ : string) :
  check_pair video_duration start end_ = AdjustEnd ->
  within video_duration (start, time_to_seconds_to_timestamp video_duration).
Proof.
  unfold check_pair, within. cbn [fst snd].
  destruct (time_to_seconds start) as [start_sec|]; [| discriminate].
  destruct (time_to_seconds end_) as [end_sec|]; [| discriminate].
  destruct (Qle_bool video_duration (inject_Z start_sec)) eqn:Hstart; [discriminate |].
  intros _. exists start_sec, (Qfloor video_duration). repeat split.
  - apply to_seconds_of_timestamp_floor.
  - apply Qnot_le_lt. intros Hle. apply Qle_bool_iff in Hle. congruence.
  - apply Qfloor_le.
Qed.

Lemma validated_within (timestamps : list (string * string)) :
  Forall (within video_duration) (adjust_timestamps video_duration timestamps).
Proof.
  rewrite adjust_timestamps_flat_map.
  induction timestamps as [|[start end_] rest IH]; cbn [flat_map]; [constructor |].
  apply Forall_app. split; [| exact IH]. unfold adjust_pair.
  destruct (check_pair video_duration start end_) eqn:Hcheck; cbn [app];
    repeat constructor.
  - apply check_pair_adjust_inv with (end_ := end_). exact Hcheck.
  - apply check_pair_keep_inv. exact Hcheck.
Qed.

Lemma adjust_within_id (timestamps : list (string * string)) :
  Forall (within video_duration) timestamps ->
  adjust_timestamps video_duration timestamps = timestamps.
Proof.
  intros Hall. rewrite adjust_timestamps_flat_map.
  induction Hall as [|[start end_] rest Hp _ IH]; [reflexivity |].
  cbn [flat_map]. rewrite IH. destruct Hp as (start_sec & end_sec & Hs & He & Hlt & Hle).
  cbn [fst snd] in *. unfold adjust_pair.
  rewrite (check_pair_keep _ _ _ _ _ Hs He Hlt Hle). reflexivity.
Qed.

End validator_invariant.


(** X9: validating a validated list changes nothing: the clamped end
    [to_timestamp(duration)] is itself accepted as it is. *)
Theorem validator_idempotent (video_duration : Q) (timestamps : list (string * string)) :
  adjust_timestamps video_duration (adjust_timestamps video_duration timestamps)
  = adjust_timestamps video_duration timestamps.
Proof. apply adjust_within_id, validated_within. Qed.

(** ** The names of the files of the extractor *)

Lemma append_length (s t : string) :
  String.length (s +:+ t) = (String.length s + String.length t)%nat.
Proof.
  induction s as [|c s IH]; [reflexivity |].
  rewrite append_cons. cbn [String.length Nat.add]. rewrite IH. reflexivity.
Qed.

Lemma append_cancel_r (t : string) :
  forall s1 s2, s1 +:+ t = s2 +:+ t -> s1 = s2.
Proof.
  induction s1 as [|c s1 IH]; intros [|c' s2] Heq.
  - reflexivity.
  - apply (f_equal String.length) in Heq. rewrite append_nil_l, append_length in Heq.
    cbn [String.length] in Heq. lia.
  - apply (f_equal String.length) in Heq. rewrite append_nil_l, append_length in Heq.
    cbn [String.length] in Heq. lia.
  - rewrite !append_cons in Heq. injection Heq as -> Heq. f_equal. apply IH. exact Heq.
Qed.

Lemma path_join_inj (a b1 b2 : string) :
  Py.path_join a b1 = Py.path_join a b2 -> b1 = b2.
Proof.
  unfold Py.path_join. destruct (Py.last_char a) as [c|]; [| trivial].
  destruct (Ascii.eqb c "/"); intros Heq.
  - apply (inj (String.app a)) in Heq. exact Heq.
  - apply (inj (String.app a)) in Heq. apply (inj (String.app "/")) in Heq. exact Heq.
Qed.

Lemma str_nat_inj (n m : Z) : 0 <= n -> 0 <= m -> Py.str_nat n = Py.str_nat m -> n = m.
Proof.
  intros Hn Hm Heq. pose proof (int_digits_str_nat n false Hn) as Hread.
  rewrite Heq, int_digits_str_nat in Hread by exact Hm. congruence.
Qed.

Lemma str_index_inj (i j : nat) :
  Py.str (Z.of_nat i + 1) = Py.str (Z.of_nat j + 1) -> i = j.
Proof.
  unfold Py.str.
  destruct (Z.ltb_spec (Z.of_nat i + 1) 0) as [Hi | _]; [lia |].
  destruct (Z.ltb_spec (Z.of_nat j + 1) 0) as [Hj | _]; [lia |].
  intros Heq. apply str_nat_inj in Heq; lia.
Qed.

Lemma temp_path_inj (folder : string) (i j : nat) :
  temp_path folder i = temp_path folder j -> i = j.
Proof.
  unfold temp_path. intros Heq. apply path_join_inj in Heq.
  apply (inj (String.app "temp_clip_")) in Heq.
  apply append_cancel_r in Heq. apply str_index_inj. exact Heq.
Qed.

Lemma final_path_inj (folder : string) (i j : nat) :
  final_path folder i = final_path folder j -> i = j.
Proof.
  unfold final_path. intros Heq. apply path_join_inj in Heq.
  apply (inj (String.app "clip_")) in Heq.
  apply append_cancel_r in Heq. apply str_index_inj. exact Heq.
Qed.

Lemma temp_final_distinct (folder : string) (i j : nat) :
  temp_path folder i <> final_path folder j.
Proof.
  unfold temp_path, final_path. intros Heq. apply path_join_inj in Heq.
  discriminate Heq.
Qed.

(** X10: the names do not collide: two iterations have different temporary
    files and different clip files, and no temporary file is a clip file. *)
Theorem clip_names_distinct (folder : string) (i j : nat) :
  (temp_path folder i = temp_path folder j <-> i = j)
  /\ (final_path folder i = final_path folder j <-> i = j)
  /\ temp_path folder i <> final_path folder j.
Proof.
  split; [| split].
  - split; [apply temp_path_inj | intros ->; reflexivity].
  - split; [apply final_path_inj | intros ->; reflexivity].
  - apply temp_final_distinct.
Qed.

(** ** More on the extractor *)

Lemma write_file_other (path other : string) (written : option N) (fs : filesystem) :
  other <> path -> write_file path written fs !! other = fs !! other.
Proof.
  intros Hne. unfold write_file. destruct written; [| reflexivity].
  apply lookup_insert_ne. congruence.
Qed.

Lemma os_remove_other (refused : bool) (path other : string) (fs fs' : filesystem) :
  other <> path -> os_remove refused path fs = Some fs' -> fs' !! other = fs !! other.
Proof.
  intros Hne. unfold os_remove. destruct refused; [discriminate |].
  destruct (fs !! path); [| discriminate]. intros [= <-].
  apply lookup_delete_ne. congruence.
Qed.

Lemma remove_temp_other (env : clip_env) (path other : string) (fs : filesystem) :
  other <> path -> remove_temp env path fs !! other = fs !! other.
Proof.
  intros Hne. unfold remove_temp.
  destruct (os_remove (remove_refused env) path fs) as [fs'|] eqn:Hrm; [| reflexivity].
  eapply os_remove_other; eassumption.
Qed.

Section one_iteration.

Variables (env : clip_env) (folder : string) (idx : nat).
Variables (p : string * string) (fs : filesystem).

Lemma process_clip_frame (path : string) :
  path <> temp_path folder idx -> path <> final_path folder idx ->
  (process_clip env folder idx p fs).1 !! path = fs !! path.
Proof.
  intros Htemp Hfinal. destruct p as [start end_]. unfold process_clip.
  pose proof (write_file_other (temp_path folder idx) path (extract_leaves env) fs Htemp)
    as Hfs1.
  destruct (time_to_seconds start); [| reflexivity].
  destruct (time_to_seconds end_); [| reflexivity].
  destruct (extract_raises env); [exact Hfs1 |].
  destruct (write_file _ _ fs !! temp_path folder idx) as [[|size]|]; try exact Hfs1.
  destruct (test_open env) as [test_duration|]; [| exact Hfs1].
  destruct (Qeq_bool test_duration 0).
  { destruct (os_remove _ _ _) as [fs2|] eqn:Hrm; [| exact Hfs1].
    cbn [fst]. rewrite (os_remove_other _ _ _ _ _ Htemp Hrm). exact Hfs1. }
  destruct (clip_open env) as [[duration fps]|].
  2: { cbn [fst]. rewrite remove_temp_other by exact Htemp. exact Hfs1. }
  destruct (Qeq_bool duration 0).
  { destruct (os_remove _ _ _) as [fs2|] eqn:Hrm; cbn [fst].
    - rewrite (os_remove_other _ _ _ _ _ Htemp Hrm). exact Hfs1.
    - rewrite remove_temp_other by exact Htemp. exact Hfs1. }
  cbn [fst]. rewrite remove_temp_other, write_file_other by assumption. exact Hfs1.
Qed.

Lemma process_clip_saved (size : N) :
  (process_clip env folder idx p fs).2 = Saved -> save_leaves env = Some size ->
  (process_clip env folder idx p fs).1 !! final_path folder idx = Some size.
Proof.
  pose proof (temp_final_distinct folder idx idx) as Hne.
  destruct p as [start end_]. unfold process_clip.
  destruct (time_to_seconds start); [| discriminate].
  destruct (time_to_seconds end_); [| discriminate].
  destruct (extract_raises env); [discriminate |].
  destruct (write_file _ _ fs !! temp_path folder idx) as [[|size0]|]; try discriminate.
  destruct (test_open env) as [test_duration|]; [| discriminate].
  destruct (Qeq_bool test_duration 0).
  { destruct (os_remove _ _ _); discriminate. }
  destruct (clip_open env) as [[duration fps]|]; [| discriminate].
  destruct (Qeq_bool duration 0).
  { destruct (os_remove _ _ _); discriminate. }
  cbn [fst snd]. destruct (save_raises env); [discriminate |]. intros _ ->.
  rewrite remove_temp_other by congruence. cbn [write_file]. apply lookup_insert_eq.
Qed.

Lemma process_clip_abandoned :
  save_attempted (process_clip env folder idx p fs).2 = false ->
  (process_clip env folder idx p fs).1 !! final_path folder idx
  = fs !! final_path folder idx.
Proof.
  assert (Hne : final_path folder idx <> temp_path folder idx).
  { intros Heq. exact (temp_final_distinct folder idx idx (eq_sym Heq)). }
  pose proof (write_file_other (temp_path folder idx) _ (extract_leaves env) fs Hne) as Hfs1.
  destruct p as [start end_]. unfold process_clip.
  destruct (time_to_seconds start); [| reflexivity].
  destruct (time_to_seconds end_); [| reflexivity].
  destruct (extract_raises env); [intros _; exact Hfs1 |].
  destruct (write_file _ _ fs !! temp_path folder idx) as [[|size0]|];
    try (intros _; exact Hfs1).
  destruct (test_open env) as [test_duration|]; [| intros _; exact Hfs1].
  destruct (Qeq_bool test_duration 0).
  { destruct (os_remove _ _ _) as [fs2|] eqn:Hrm; intros _; [| exact Hfs1].
    cbn [fst]. rewrite (os_remove_other _ _ _ _ _ Hne Hrm). exact Hfs1. }
  destruct (clip_open env) as [[duration fps]|]; [| discriminate].
  destruct (Qeq_bool duration 0).
  { destruct (os_remove _ _ _) as [fs2|] eqn:Hrm; [| discriminate]. intros _.
    cbn [fst]. rewrite (os_remove_other _ _ _ _ _ Hne Hrm). exact Hfs1. }
  cbn [snd]. destruct (save_raises env); discriminate.
Qed.

End one_iteration.

Lemma process_clips_frame (envs : nat -> clip_env) (folder path : string)
    (timestamps : list (string * string)) :
  (forall i, path <> temp_path folder i /\ path <> final_path folder i) ->
  forall idx fs, (process_clips envs folder idx timestamps fs).1 !! path = fs !! path.
Proof.
  intros Hpath. induction timestamps as [|p rest IH]; intros idx fs; cbn [process_clips];
    [reflexivity |].
  pose proof (process_clip_frame (envs idx) folder idx p fs path
                (proj1 (Hpath idx)) (proj2 (Hpath idx))) as Hstep.
  destruct (process_clip (envs idx) folder idx p fs) as [fs1 o].
  specialize (IH (S idx) fs1).
  destruct (process_clips envs folder (S idx) rest fs1) as [fs2 os].
  cbn [fst] in *. congruence.
Qed.

(** X11: when [os.remove] is not refused, every branch of an iteration
    that tries to delete the temporary file (zero duration, failed or
    successful save) leaves no temporary file behind. *)
Theorem temp_file_removed_when_tried (env : clip_env) (folder : string) (idx : nat)
    (p : string * string) (fs : filesystem) :
  remove_refused env = false ->
  removal_attempted (process_clip env folder idx p fs).2 = true ->
  (process_clip env folder idx p fs).1 !! temp_path folder idx = None.
Proof. apply process_clip_removes_temp. Qed.

Lemma temp_file_removed_when_tried_witness :
  (process_clip working_env "out" 4 ("00:10", "00:20") {["out/temp_clip_5.mp4" := 7%N]}).1
  !! "out/temp_clip_5.mp4" = None.
Proof.
  apply (temp_file_removed_when_tried working_env "out" 4 ("00:10", "00:20")).
  - reflexivity.
  - vm_compute. reflexivity.
Defined.



(** X13: an iteration that ends with the clip saved leaves the clip file
    with the size the encoder wrote. *)
Theorem saved_clip_is_there (env : clip_env) (folder : string) (idx : nat)
    (p : string * string) (fs : filesystem) (size : N) :
  (process_clip env folder idx p fs).2 = Saved -> save_leaves env = Some size ->
  (process_clip env folder idx p fs).1 !! final_path folder idx = Some size.
Proof. apply process_clip_saved. Qed.

Lemma saved_clip_is_there_witness :
  (process_clip working_env "out" 0 ("00:10", "00:20") ∅).1 !! final_path "out" 0
  = Some 2000%N.
Proof.
  apply (saved_clip_is_there working_env "out" 0 ("00:10", "00:20") ∅ 2000);
    vm_compute; reflexivity.
Defined.

(** X14: an iteration that is abandoned before the save (invalid
    timestamps, failed or empty extraction, zero duration) leaves the clip
    file of its index as it was. *)
Theorem abandoned_clip_untouched (env : clip_env) (folder : string) (idx : nat)
    (p : string * string) (fs : filesystem) :
  save_attempted (process_clip env folder idx p fs).2 = false ->
  (process_clip env folder idx p fs).1 !! final_path folder idx
  = fs !! final_path folder idx.
Proof. apply process_clip_abandoned. Qed.

Lemma abandoned_clip_untouched_witness :
  (process_clip empty_extract_env "out" 0 ("00:10", "00:20") {["out/clip_1.mp4" := 3%N]}).1
  !! final_path "out" 0
  = ({["out/clip_1.mp4" := 3%N]} : filesystem) !! final_path "out" 0.
Proof.
  apply (abandoned_clip_untouched empty_extract_env "out" 0 ("00:10", "00:20")).
  vm_compute. reflexivity.
Defined.

(** ** The whole loop and the main block *)

Lemma within_converts (video_duration : Q) (p : string * string) :
  within video_duration p -> converts p.
Proof. intros (start_sec & end_sec & Hs & He & _). split; eexists; eassumption. Qed.

Lemma process_clip_works (env : clip_env) (folder : string) (idx : nat)
    (p : string * string) (fs : filesystem) :
  works env -> converts p -> (process_clip env folder idx p fs).2 = Saved.
Proof.
  intros (Hraises & [size Hsize] & (td & Htest & Htd) & (d & fps & Hclip & Hd)
          & Hsave & _ & Hrefused) [[start_sec Hs] [end_sec He]].
  destruct p as [start end_]. cbn [fst snd] in Hs, He. unfold process_clip.
  rewrite Hs, He, Hraises, Hsize. cbn [write_file]. rewrite lookup_insert_eq.
  rewrite Htest, Htd, Hclip, Hd, Hsave. reflexivity.
Qed.

Lemma process_clip_converts (env : clip_env) (folder : string) (idx : nat)
    (p : string * string) (fs : filesystem) :
  converts p -> (process_clip env folder idx p fs).2 <> InvalidTimestamps.
Proof.
  intros [[start_sec Hs] [end_sec He]]. destruct p as [start end_].
  cbn [fst snd] in Hs, He. unfold process_clip. rewrite Hs, He.
  destruct (extract_raises env); [discriminate |].
  destruct (write_file _ _ fs !! temp_path folder idx) as [[|size]|]; try discriminate.
  destruct (test_open env) as [test_duration|]; [| discriminate].
  destruct (Qeq_bool test_duration 0).
  { destruct (os_remove _ _ _); discriminate. }
  destruct (clip_open env) as [[duration fps]|]; [| discriminate].
  destruct (Qeq_bool duration 0).
  { destruct (os_remove _ _ _); discriminate. }
  cbn [snd]. destruct (save_raises env); discriminate.
Qed.

Lemma process_clips_converts (envs : nat -> clip_env) (folder : string)
    (timestamps : list (string * string)) :
  Forall converts timestamps ->
  forall idx fs,
    Forall (fun o => o <> InvalidTimestamps) (process_clips envs folder idx timestamps fs).2.
Proof.
  induction 1 as [|p rest Hp _ IH]; intros idx fs; cbn [process_clips]; [constructor |].
  pose proof (process_clip_converts (envs idx) folder idx p fs Hp) as Hstep.
  destruct (process_clip (envs idx) folder idx p fs) as [fs1 o].
  specialize (IH (S idx) fs1).
  destruct (process_clips envs folder (S idx) rest fs1) as [fs2 os].
  cbn [snd] in *. constructor; assumption.
Qed.

(** The loop from [idx] on touches the files of the indices it goes through
    only. *)
Lemma process_clips_frame_from (envs : nat -> clip_env) (folder path : string)
    (timestamps : list (string * string)) :
  forall idx fs,
    (forall i, (idx <= i)%nat -> path <> temp_path folder i /\ path <> final_path folder i) ->
    (process_clips envs folder idx timestamps fs).1 !! path = fs !! path.
Proof.
  induction timestamps as [|p rest IH]; intros idx fs Hpath; cbn [process_clips];
    [reflexivity |].
  pose proof (process_clip_frame (envs idx) folder idx p fs path
                (proj1 (Hpath idx (le_n idx))) (proj2 (Hpath idx (le_n idx)))) as Hstep.
  destruct (process_clip (envs idx) folder idx p fs) as [fs1 o].
  specialize (IH (S idx) fs1 (fun i Hi => Hpath i (Nat.lt_le_incl _ _ Hi))).
  destruct (process_clips envs folder (S idx) rest fs1) as [fs2 os].
  cbn [fst] in *. congruence.
Qed.

Lemma process_clips_all_saved (envs : nat -> clip_env) (folder : string)
    (timestamps : list (string * string)) :
  (forall i, works (envs i)) -> Forall converts timestamps ->
  forall idx fs,
    (process_clips envs folder idx timestamps fs).2 = replicate (length timestamps) Saved
    /\ forall k, (k < length timestamps)%nat ->
         (process_clips envs folder idx timestamps fs).1 !! final_path folder (idx + k)
         = save_leaves (envs (idx + k)%nat)
         /\ (process_clips envs folder idx timestamps fs).1 !! temp_path folder (idx + k)
            = None.
Proof.
  intros Hworks. induction 1 as [|p rest Hp _ IH]; intros idx fs; cbn [process_clips].
  - split; [reflexivity |]. cbn [length]. lia.
  - pose proof (process_clip_works (envs idx) folder idx p fs (Hworks idx) Hp) as Hsaved.
    destruct (Hworks idx) as (_ & _ & _ & _ & _ & [size Hsize] & Hrefused).
    pose proof (process_clip_saved (envs idx) folder idx p fs size Hsaved Hsize) as Hfinal.
    pose proof (process_clip_removes_temp (envs idx) folder idx p fs Hrefused) as Htemp.
    rewrite Hsaved in Htemp. specialize (Htemp eq_refl).
    destruct (process_clip (envs idx) folder idx p fs) as [fs1 o]. cbn [fst snd] in *.
    destruct (IH (S idx) fs1) as [IHout IHfiles].
    pose proof (process_clips_frame_from envs folder (final_path folder idx) rest (S idx) fs1)
      as Hkeep_final.
    pose proof (process_clips_frame_from envs folder (temp_path folder idx) rest (S idx) fs1)
      as Hkeep_temp.
    destruct (process_clips envs folder (S idx) rest fs1) as [fs2 os]. cbn [fst snd] in *.
    split; [subst o; cbn [length replicate]; f_equal; exact IHout |].
    intros [|k] Hk.
    + rewrite Nat.add_0_r. split.
      * rewrite Hkeep_final, Hfinal; [congruence |]. intros i Hi. split.
        -- intros Heq. exact (temp_final_distinct folder i idx (eq_sym Heq)).
        -- intros Heq. apply final_path_inj in Heq. lia.
      * rewrite Hkeep_temp; [exact Htemp |]. intros i Hi. split.
        -- intros Heq. apply temp_path_inj in Heq. lia.
        -- apply temp_final_distinct.
    + cbn [length] in Hk. rewrite <- Nat.add_succ_comm. apply IHfiles. lia.
Qed.

Lemma inputs_are_no_clip_files (i : nat) :
  (video_path <> temp_path output_folder i /\ video_path <> final_path output_folder i)
  /\ (timestamps_file <> temp_path output_folder i
      /\ timestamps_file <> final_path output_folder i).
Proof.
  unfold video_path, timestamps_file, temp_path, final_path, output_folder.
  repeat split; discriminate.
Qed.

(** X15: the defensive check of the extractor never fires in a run: every
    pair that reaches it has passed the validator, so no iteration ends on the
    invalid-timestamps branch. *)
Theorem main_never_skips_invalid (w : world) (fs : filesystem) :
  Forall (fun o => o <> InvalidTimestamps) (main w fs).2.
Proof.
  unfold main. destruct (fs !! video_path); [| constructor].
  destruct (fs !! timestamps_file); [| constructor].
  apply process_clips_converts.
  eapply Forall_impl; [apply validated_within |]. apply within_converts.
Qed.

(** X16: a run never changes the source video nor the timestamps file. *)
Theorem main_leaves_inputs (w : world) (fs : filesystem) :
  (main w fs).1 !! video_path = fs !! video_path
  /\ (main w fs).1 !! timestamps_file = fs !! timestamps_file.
Proof.
  assert (Hframe : forall path,
    (forall i, path <> temp_path output_folder i /\ path <> final_path output_folder i) ->
    (main w fs).1 !! path = fs !! path).
  { intros path Hpath. unfold main. destruct (fs !! video_path); [| reflexivity].
    destruct (fs !! timestamps_file); [| reflexivity].
    apply process_clips_frame, Hpath. }
  split; apply Hframe; intros i; apply inputs_are_no_clip_files.
Qed.

(** X17: when both input files are there and every step of the toolchain
    works, the run saves one clip for each validated pair, numbered from 1 in
    the order of the pairs, and leaves no temporary file of theirs. *)
Theorem main_saves_every_validated_pair (w : world) (fs : filesystem) :
  is_Some (fs !! video_path) -> is_Some (fs !! timestamps_file) ->
  (forall i, works (clip_envs w i)) ->
  let validated :=
    adjust_timestamps (get_video_duration (video_probe w))
      (read_timestamps (timestamps_text w)) in
  (main w fs).2 = replicate (length validated) Saved
  /\ forall k, (k < length validated)%nat ->
       (main w fs).1 !! final_path output_folder k = save_leaves (clip_envs w k)
       /\ (main w fs).1 !! temp_path output_folder k = None.
Proof.
  intros [v Hv] [t Ht] Hworks validated. unfold main. rewrite Hv, Ht.
  unfold extract_and_resize_clips. fold validated.
  apply (process_clips_all_saved (clip_envs w) output_folder validated Hworks).
  eapply Forall_impl; [apply validated_within |]. apply within_converts.
Qed.

Lemma working_env_works : works working_env.
Proof.
  unfold works, working_env. cbn.
  repeat split; try reflexivity; repeat eexists; reflexivity.
Qed.

Lemma main_saves_every_validated_pair_witness :
  (main working_world input_files).1 !! "video-processing/output_videos/clip_2.mp4"
  = Some 2000%N
  /\ (main working_world input_files).1 !! "video-processing/output_videos/temp_clip_2.mp4"
     = None.
Proof.
  assert (Hvideo : is_Some (input_files !! video_path)) by (exists 9000%N; reflexivity).
  assert (Htimes : is_Some (input_files !! timestamps_file)) by (exists 36%N; reflexivity).
  pose proof (main_saves_every_validated_pair working_world input_files Hvideo Htimes
                (fun _ => working_env_works)) as Hrun.
  cbv zeta in Hrun. destruct Hrun as [_ Hfiles].
  apply (Hfiles 1%nat). vm_compute. repeat constructor.
Defined.
